(** * The intent-routing and response-formatting layer of the banking chatbot

    [create-dialogflow-integration.py] writes three JavaScript/TypeScript
    artefacts to disk: [DialogFlowService.ts] (web chat UI),
    [dialogflow.js] (backend service, class [MCPDialogFlowService]) and a
    README holding the [handleIntent] confidence policy.  The logic of the
    repository lives in those embedded programs; this development is a
    shallow embedding of them, function by function, together with the part
    of the JavaScript semantics they rely on (truthiness, [||], [?.],
    property reads and writes on ordinary objects, [Number.prototype.toFixed],
    number-to-string conversion).

    Numbers are IEEE-754 binary64 values (Rocq's primitive [float]); objects
    are finite maps from property names to values, with a prototype link. *)

From Stdlib Require Import ZArith QArith Qround Qabs Qpower String Ascii List Floats DecimalString Lia.
From stdpp Require Import gmap strings list sorting.

Set Warnings "-inexact-float,-register-all".

Local Open Scope string_scope.

(** ** JavaScript values and the operations the programs use *)

Module JS.

(** *** Numbers *)

(** The exact rational a finite binary64 number denotes. *)
Definition exact (x : float) : option Q :=
  match Prim2SF x with
  | S754_zero _ => Some 0%Q
  | S754_finite s m e =>
      Some ((inject_Z (if s then Z.neg m else Z.pos m)) * Qpower 2 e)%Q
  | S754_infinity _ | S754_nan => None
  end.

Definition isNaN (x : float) : bool := negb (PrimFloat.eqb x x).

(** Decimal digits of a natural number, most significant first. *)
Definition digits (n : N) : string := NilZero.string_of_uint (N.to_uint n).

Fixpoint zeros (n : nat) : string :=
  match n with
  | O => ""
  | S n' => String "0" (zeros n')
  end.

Definition pow10 (z : Z) : Q := Qpower 10 z.

Definition Qltb (a b : Q) : bool := negb (Qle_bool b a).

(** **** Number::toString (radix 10) *)

(** The least [p], searched upwards from [p], with [v < 10^p]. *)
Fixpoint magnitude (fuel : nat) (v : Q) (p : Z) : Z :=
  match fuel with
  | O => p
  | S fuel' => if Qltb v (pow10 p) then p else magnitude fuel' v (p + 1)
  end.

(** The reals that round to the binary64 number [m * 2^e] (round to
    nearest, ties to even) form an interval around it; its ends are the
    midpoints to the neighbouring numbers and belong to it when [m] is
    even. *)
Definition rounds_to (m : positive) (e : Z) (w : Q) : bool :=
  let hi := (inject_Z (2 * Z.pos m + 1) * Qpower 2 (e - 1))%Q in
  let lo :=
    if ((Z.pos m =? 2 ^ 52)%Z && (-1074 <? e)%Z)%bool
    then (inject_Z (4 * Z.pos m - 1) * Qpower 2 (e - 2))%Q
    else (inject_Z (2 * Z.pos m - 1) * Qpower 2 (e - 1))%Q in
  if Z.even (Z.pos m)
  then (Qle_bool lo w && Qle_bool w hi)%bool
  else (Qltb lo w && Qltb w hi)%bool.

(** Shortest decimal [s * 10^(n-k)], [s] of [k] digits, that rounds to
    [m * 2^e]: the pair [(s, n)], found by trying [k = 1, 2, ...].  Of the
    two candidates next to the value, the closer one is kept (the even one
    on a tie). *)
Fixpoint shortest (fuel : nat) (m : positive) (e : Z) (p : Z) (k : Z) : N * Z :=
  let v := (inject_Z (Z.pos m) * Qpower 2 e)%Q in
  let sc := pow10 (p - k) in
  let c1 := Qfloor (v / sc) in
  let c2 := (c1 + 1)%Z in
  let ok1 := rounds_to m e (inject_Z c1 * sc) in
  let ok2 := rounds_to m e (inject_Z c2 * sc) in
  let d1 := (v - inject_Z c1 * sc)%Q in
  let d2 := (inject_Z c2 * sc - v)%Q in
  let pick (c : Z) : N * Z :=
    if (c =? 10 ^ k)%Z then (1%N, (p + 1)%Z) else (Z.to_N c, p) in
  match fuel with
  | O => pick c1
  | S fuel' =>
      if (ok1 && ok2)%bool then
        if Qltb d1 d2 then pick c1
        else if Qltb d2 d1 then pick c2
        else if Z.even c1 then pick c1 else pick c2
      else if ok1 then pick c1
      else if ok2 then pick c2
      else shortest fuel' m e p (k + 1)
  end.

(** Steps 6 to 10 of Number::toString: lay out the [k] digits of [s]
    with the decimal point after [n] of them. *)
Definition layout (ds : string) (n : Z) : string :=
  let k := Z.of_nat (String.length ds) in
  if ((k <=? n) && (n <=? 21))%Z%bool then
    ds ++ zeros (Z.to_nat (n - k))
  else if ((0 <? n) && (n <=? 21))%Z%bool then
    substring 0 (Z.to_nat n) ds ++ "." ++ substring (Z.to_nat n) (Z.to_nat (k - n)) ds
  else if ((-6 <? n) && (n <=? 0))%Z%bool then
    "0." ++ zeros (Z.to_nat (- n)) ++ ds
  else
    let ex := (n - 1)%Z in
    let sign := if (ex <? 0)%Z then "-" else "+" in
    let mant :=
      if (k =? 1)%Z then ds
      else substring 0 1 ds ++ "." ++ substring 1 (Z.to_nat (k - 1)) ds in
    mant ++ "e" ++ sign ++ digits (Z.to_N (Z.abs ex)).

Definition numberToString (x : float) : string :=
  match Prim2SF x with
  | S754_nan => "NaN"
  | S754_zero _ => "0"
  | S754_infinity s => if s then "-Infinity" else "Infinity"
  | S754_finite s m e =>
      let v := (inject_Z (Z.pos m) * Qpower 2 e)%Q in
      let p := magnitude 640 v (-324) in
      let '(s10, n) := shortest 20 m e p 1 in
      (if s then "-" else "") ++ layout (digits s10) n
  end.

(** **** Number.prototype.toFixed *)

(** Step 10 of toFixed: the digits of [n], padded on the left to
    [f + 1] digits, with a point before the last [f]. *)
Definition fixed_digits (n : N) (f : nat) : string :=
  let m := digits n in
  if (f =? 0)%nat then m
  else
    let m := if (String.length m <=? f)%nat
             then zeros (f + 1 - String.length m) ++ m else m in
    let a := (String.length m - f)%nat in
    substring 0 a m ++ "." ++ substring a f m.

(** [x.toFixed(f)] for [f <= 100] (a larger [f] is a RangeError; the
    programs only pass 2). *)
Definition toFixed (x : float) (f : nat) : string :=
  match Prim2SF x with
  | S754_nan => "NaN"
  | S754_infinity s => if s then "-Infinity" else "Infinity"
  | S754_zero _ => fixed_digits 0 f
  | S754_finite s m e =>
      let v := (inject_Z (Z.pos m) * Qpower 2 e)%Q in
      if Qle_bool (pow10 21) v then numberToString x
      else
        (* the integer n with n / 10^f closest to v, the larger on a tie *)
        let n := Qfloor (v * pow10 (Z.of_nat f) + (1 # 2)) in
        (if s then "-" else "") ++ fixed_digits (Z.to_N n) f
  end.

(** *** Values *)

(** Primitives and ordinary objects.  An object has a prototype link
    ([proto]), own data properties ([own]) and the order in which their
    keys were created ([created]); an object literal has the intrinsic
    [ObjectPrototype] as its prototype.  Arrays and function values
    stored in data are outside this universe: the programs build and
    index none. *)
Inductive value :=
| Undefined
| Null
| Bool (b : bool)
| Number (x : float)
| Str (s : string)
| ObjectPrototype
| Object (proto : value) (own : gmap string value) (created : list string).

(** What a property read can produce: data, or one of the built-in
    functions every ordinary object inherits from [Object.prototype]. *)
Inductive jsany :=
| Data (v : value)
| BuiltinFunction (name : string).

(** The function-valued properties of [Object.prototype] (ECMAScript,
    with Annex B); [__proto__] is its one accessor property. *)
Definition ObjectPrototype_methods : list string :=
  [ "constructor"; "hasOwnProperty"; "isPrototypeOf"; "propertyIsEnumerable";
    "toLocaleString"; "toString"; "valueOf";
    "__defineGetter__"; "__defineSetter__"; "__lookupGetter__"; "__lookupSetter__" ].

(** An object literal [{ k1: v1, ... }]: the keys are created in the
    order they are written.  (The literals of the programs repeat no
    key.) *)
Definition literal (props : list (string * value)) : value :=
  Object ObjectPrototype (list_to_map props) props.*1.

(** ToBoolean. *)
Definition truthy (v : value) : bool :=
  match v with
  | Undefined | Null => false
  | Bool b => b
  | Number x => negb (PrimFloat.eqb x 0 || isNaN x)
  | Str s => negb (String.eqb s "")
  | ObjectPrototype | Object _ _ _ => true
  end.

Definition truthy_any (a : jsany) : bool :=
  match a with
  | Data v => truthy v
  | BuiltinFunction _ => true
  end.

(** [a || b] *)
Definition or (a b : value) : value := if truthy a then a else b.

Definition nullish (v : value) : bool :=
  match v with
  | Undefined | Null => true
  | _ => false
  end.

(** [v === undefined] *)
Definition is_undefined (v : value) : bool :=
  match v with
  | Undefined => true
  | _ => false
  end.

(** [[GetPrototypeOf]] of an object. *)
Definition prototype_of (v : value) : value :=
  match v with
  | Object p _ _ => match p with
                    | Object _ _ _ | ObjectPrototype => p
                    | _ => Null
                    end
  | _ => Null
  end.

(** The walk of [[Get]] from [v] up the prototype chain, on behalf of
    [receiver]: own data first, then the prototype's; at
    [Object.prototype] its methods and the [__proto__] getter, which
    answers with the receiver's prototype. *)
Fixpoint Get_from (receiver v : value) (k : string) : jsany :=
  match v with
  | Object p own _ =>
      match own !! k with
      | Some x => Data x
      | None => Get_from receiver p k
      end
  | ObjectPrototype =>
      if String.eqb k "__proto__" then Data (prototype_of receiver)
      else if existsb (String.eqb k) ObjectPrototype_methods then BuiltinFunction k
      else Data Undefined
  | _ => Data Undefined
  end.

(** [o[k]] for an object [o]; a primitive receiver yields [undefined]
    (the programs read from primitives only names that no wrapper
    prototype defines). *)
Definition Get (o : value) (k : string) : jsany := Get_from o o k.

(** Does an assignment to [__proto__] that starts its walk at [v]
    reach the setter of [Object.prototype]? *)
Fixpoint reaches_proto_setter (v : value) : bool :=
  match v with
  | Object p own _ =>
      match own !! "__proto__" with
      | Some _ => false
      | None => reaches_proto_setter p
      end
  | ObjectPrototype => true
  | _ => false
  end.

(** [o[k] = v] on an ordinary object: an own data property is
    overwritten where it is, or created after the existing ones, except
    that [__proto__], when it resolves to the accessor of
    [Object.prototype], replaces the prototype if [v] is an object or
    [null] and does nothing otherwise.  (The programs assign to objects
    only.) *)
Definition Put (o : value) (k : string) (v : value) : value :=
  match o with
  | Object p own created =>
      if (String.eqb k "__proto__" && reaches_proto_setter o)%bool then
        match v with
        | Object _ _ _ | ObjectPrototype | Null => Object v own created
        | _ => o
        end
      else Object p (<[k := v]> own)
                  (match own !! k with
                   | Some _ => created
                   | None => (created ++ [k])%list
                   end)
  | _ => o
  end.

(** [[GetOwnProperty]]: the own data property [k] of [o], if any. *)
Definition own_property (o : value) (k : string) : option value :=
  match o with
  | Object _ own _ => own !! k
  | _ => None
  end.

(** The array index a property key denotes, if it denotes one: the key
    is then the canonical decimal form of an integer below 2^32 - 1. *)
Definition array_index (k : string) : option N :=
  match NilZero.uint_of_string k with
  | Some d =>
      let n := N.of_uint d in
      if (String.eqb (digits n) k && (n <? 4294967295)%N)%bool then Some n else None
  | None => None
  end.

(** The order of two array indices. *)
Definition index_le (k1 k2 : string) : Prop :=
  (default 0 (array_index k1) <= default 0 (array_index k2))%N.

#[global] Instance index_le_dec : RelDecision index_le :=
  fun k1 k2 => decide (default 0 (array_index k1) <= default 0 (array_index k2))%N.

(** [[OwnPropertyKeys]] of an ordinary object: the array indices in
    ascending order, then the other keys in the order of their creation.
    (Keys that [own] holds but [created] does not list come last; an
    object built by literals and assignments has none.) *)
Definition own_keys (own : gmap string value) (created : list string) : list string :=
  let listed := remove_dups (filter (fun k => is_Some (own !! k)) created) in
  let unlisted := filter (fun k => k ∉ created) (map_to_list own).*1 in
  let keys := (listed ++ unlisted)%list in
  (merge_sort index_le (filter (fun k => is_Some (array_index k)) keys)
   ++ filter (fun k => ¬ is_Some (array_index k)) keys)%list.

(** [Object.keys(o)] paired with the value [o[key]] of each key, in the
    order of [Object.keys].  For an object these are its own properties,
    for a string its characters under their indices. *)
Definition entries (o : value) : list (string * value) :=
  match o with
  | Object _ own created =>
      omap (fun k => pair k <$> own !! k) (own_keys own created)
  | Str s =>
      imap (fun i c => (digits (N.of_nat i), Str (String c "")))
           (list_ascii_of_string s)
  | _ => []
  end.
#[global] Arguments entries : simpl never.

(** *** Exceptions *)

Inductive exn :=
| Error (message : string)
| TypeError (message : string).

Definition message_of (e : exn) : string :=
  match e with
  | Error m | TypeError m => m
  end.

Inductive result (A : Type) :=
| Return (a : A)
| Throw (e : exn).
Arguments Return {A} a.
Arguments Throw {A} e.

#[global] Instance result_ret : MRet result := fun A a => Return a.

#[global] Instance result_bind : MBind result := fun A B f r =>
  match r with
  | Return a => f a
  | Throw e => Throw e
  end.

(** [try { body } catch (error) { handler }] *)
Definition try_catch {A} (body : result A) (handler : exn -> result A) : result A :=
  match body with
  | Return a => Return a
  | Throw e => handler e
  end.

(** [list.forEach(f)] threading the state the callback mutates. *)
Fixpoint forEach {A S} (l : list A) (f : S -> A -> result S) (s : S) : result S :=
  match l with
  | [] => Return s
  | a :: l' => f s a ≫= forEach l' f
  end.

(** The value of [v.k] for a property name [k] written in the program.
    None of the names the programs write is defined by a built-in
    prototype, so a built-in function is never what such a read finds. *)
Definition read (v : value) (k : string) : value :=
  match Get v k with
  | Data x => x
  | BuiltinFunction _ => Undefined
  end.

(** [v.k] and [v[k]]: a TypeError on [null] and [undefined] (message as
    V8 words it). *)
Definition prop (v : value) (k : string) : result value :=
  match v with
  | Undefined =>
      Throw (TypeError ("Cannot read properties of undefined (reading '" ++ k ++ "')"))
  | Null =>
      Throw (TypeError ("Cannot read properties of null (reading '" ++ k ++ "')"))
  | _ => Return (read v k)
  end.

(** [v?.k] *)
Definition optprop (v : value) (k : string) : result value :=
  if nullish v then Return Undefined else prop v k.

(** ToString, as a template literal applies it.  An ordinary object
    answers through its inherited [toString]: ["[object Object]"]; when
    a data property shadows that method, or the chain does not reach
    [Object.prototype], no primitive can be produced. *)
Definition ToString (v : value) : result string :=
  match v with
  | Undefined => Return "undefined"
  | Null => Return "null"
  | Bool b => Return (if b then "true" else "false")
  | Number x => Return (numberToString x)
  | Str s => Return s
  | ObjectPrototype => Return "[object Object]"
  | Object _ _ _ =>
      match Get v "toString" with
      | BuiltinFunction _ => Return "[object Object]"
      | Data _ => Throw (TypeError "Cannot convert object to primitive value")
      end
  end.

(** [v.toFixed(f)]: the method exists on numbers only; on any other
    value of this universe the callee is [undefined] or data. *)
Definition call_toFixed (what : string) (v : value) (f : nat) : result string :=
  match v with
  | Number x => Return (toFixed x f)
  | Undefined | Null => prop v "toFixed" ≫= fun _ => Return ""
  | _ => Throw (TypeError (what ++ ".toFixed is not a function"))
  end.

End JS.

Export JS.

Notation "a ||| b" := (JS.or a b) (at level 50, left associativity).

(** ** The provider boundary

    The hosted NLU service is reached through the client library's
    [SessionsClient]; its response has the shape the library declares
    ([IDetectIntentResponse], [IQueryResult], [IIntent]): every member may
    be absent ([undefined]) or [null].  The call either resolves with a
    response or rejects with an error object.  [parameters] is the
    provider's struct, which the programs receive as [any]. *)

Module Provider.

Inductive nullable (A : Type) :=
| undefined
| null
| present (a : A).
Arguments undefined {A}.
Arguments null {A}.
Arguments present {A} a.

Record Intent := { displayName : nullable string }.

Record QueryResult := {
  intent : nullable Intent;
  intentDetectionConfidence : nullable float;
  parameters : value;
  fulfillmentText : nullable string
}.

Record DetectIntentResponse := { queryResult : nullable QueryResult }.

Record DetectIntentRequest := {
  session : string;
  text : string;
  languageCode : string
}.

Inductive outcome :=
| Resolved (response : DetectIntentResponse)
| Rejected (reason : exn).

Record SessionsClient := {
  projectAgentSessionPath : string -> string -> string;
  detectIntent : DetectIntentRequest -> outcome
}.

(** [await promise] *)
Definition await (o : outcome) : result DetectIntentResponse :=
  match o with
  | Resolved response => Return response
  | Rejected reason => Throw reason
  end.

(** [x || dflt] for a string-typed member. *)
Definition string_or (x : nullable string) (dflt : string) : string :=
  match x with
  | present s => if String.eqb s "" then dflt else s
  | _ => dflt
  end.

(** [x || dflt] for a number-typed member. *)
Definition number_or (x : nullable float) (dflt : float) : float :=
  match x with
  | present n => if truthy (Number n) then n else dflt
  | _ => dflt
  end.

End Provider.

(** ** [DialogFlowService.ts] (web chat UI) *)

Module DialogFlowService.

Record DialogFlowConfig := {
  projectId : string;
  sessionId : string;
  languageCode : string
}.

Record IntentResult := {
  intent : string;
  confidence : float;
  parameters : value;
  fulfillmentText : string;
  requiresAuth : value;
  apiEndpoint : value;
  permission : value
}.

Record t := {
  sessionClient : Provider.SessionsClient;
  sessionPath : string;
  config : DialogFlowConfig
}.

(** The constructor, given the client it creates. *)
Definition new (client : Provider.SessionsClient) (config : DialogFlowConfig) : t :=
  {| sessionClient := client;
     sessionPath := Provider.projectAgentSessionPath client (projectId config) (sessionId config);
     config := config |}.

(** The body of the [forEach] callback of [extractParameters]:
    [extracted] is the object under construction. *)
Definition extractField (extracted : value) (entry : string * value) : result value :=
  let '(key, field) := entry in
  stringValue ← prop field "stringValue";
  if negb (is_undefined stringValue) then
    Return (Put extracted key stringValue)
  else
    numberValue ← prop field "numberValue";
    if negb (is_undefined numberValue) then
      Return (Put extracted key numberValue)
    else
      structValue ← prop field "structValue";
      if truthy structValue then
        (* field.structValue.fields?.amount *)
        fields ← prop structValue "fields";
        amount ← optprop fields "amount";
        if truthy amount then
          amountNumber ← prop amount "numberValue";
          currency ← prop fields "currency";
          currencyString ← optprop currency "stringValue";
          Return (Put extracted key
                    (literal [ ("amount", amountNumber);
                               ("currency", currencyString ||| Str "USD") ]))
        else Return extracted
      else Return extracted.

Definition extractParameters (parameters : value) : result value :=
  if negb (truthy parameters) then Return (literal [])
  else
    fields ← prop parameters "fields";
    forEach (entries (fields ||| literal [])) extractField (literal []).

Definition descriptor (requiresAuth : bool) (apiEndpoint permission : value) : value :=
  literal [ ("requiresAuth", Bool requiresAuth);
            ("apiEndpoint", apiEndpoint);
            ("permission", permission) ].

Definition intentMapping : value :=
  literal [
    ("auth.login", descriptor false (Str "/api/auth/login") Null);
    ("account.balance", descriptor true (Str "/api/accounts/balance") (Str "read:balance"));
    ("transaction.history", descriptor true (Str "/api/transactions") (Str "read:transactions"));
    ("payment.transfer", descriptor true (Str "/api/balance-transfers") (Str "write:transfer"));
    ("payment.bill", descriptor true (Str "/api/payments/bill") (Str "write:payment"));
    ("card.status", descriptor true (Str "/api/cards") (Str "read:cards"));
    ("card.block", descriptor true (Str "/api/cards/block") (Str "write:card"));
    ("dispute.create", descriptor true (Str "/api/disputes") (Str "write:dispute"));
    ("fraud.report", descriptor true (Str "/api/fraud/report") (Str "write:fraud"));
    ("account.statement", descriptor true (Str "/api/accounts/statement") (Str "read:statement"));
    ("general.greeting", descriptor false Null Null);
    ("general.help", descriptor false Null Null)
  ].

(** [intentMapping[intent] || { requiresAuth: true, apiEndpoint: null,
    permission: null }].  The table is an object literal, so the read also
    finds what the table inherits from [Object.prototype]. *)
Definition mapToBankingOperation (intent : string) (parameters : value) : jsany :=
  let found := Get intentMapping intent in
  if truthy_any found then found else Data (descriptor true Null Null).

(** [bankingIntent.k]: a function object defines none of the three names
    read here. *)
Definition member (bankingIntent : jsany) (k : string) : result value :=
  match bankingIntent with
  | Data d => prop d k
  | BuiltinFunction _ => Return Undefined
  end.

(** The request [detectIntent] sends for [message]. *)
Definition request (this : t) (message : string) : Provider.DetectIntentRequest :=
  {| Provider.session := sessionPath this;
     Provider.text := message;
     Provider.languageCode := languageCode (config this) |}.

(** [queryResult.intent?.displayName] *)
Definition intent_displayName (queryResult : Provider.QueryResult) : Provider.nullable string :=
  match Provider.intent queryResult with
  | Provider.present i => Provider.displayName i
  | _ => Provider.undefined
  end.

Definition detectIntent (this : t) (message : string) : result IntentResult :=
  try_catch
    (response ← Provider.await (Provider.detectIntent (sessionClient this) (request this message));
     match Provider.queryResult response with
     | Provider.undefined | Provider.null =>
         Throw (Error "No query result received from DialogFlow")
     | Provider.present queryResult =>
         let intentName :=
           Provider.string_or (intent_displayName queryResult) "unknown" in
         let confidence :=
           Provider.number_or (Provider.intentDetectionConfidence queryResult) 0 in
         parameters ← extractParameters (Provider.parameters queryResult);
         let fulfillmentText :=
           Provider.string_or (Provider.fulfillmentText queryResult) "" in
         let bankingIntent := mapToBankingOperation intentName parameters in
         requiresAuth ← member bankingIntent "requiresAuth";
         apiEndpoint ← member bankingIntent "apiEndpoint";
         permission ← member bankingIntent "permission";
         Return {| intent := intentName;
                   confidence := confidence;
                   parameters := parameters;
                   fulfillmentText := fulfillmentText;
                   requiresAuth := requiresAuth;
                   apiEndpoint := apiEndpoint;
                   permission := permission |}
     end)
    (fun error => Throw (Error ("Failed to detect intent: " ++ message_of error))).

(** [formatBankingResponse(intentResult, apiResponse?)]; an omitted
    [apiResponse] is [Undefined].  (In the emitted file the two
    acknowledgment texts that contain an apostrophe are written between
    single quotes; they are read here as the string literals they are
    meant to be.) *)
Definition formatBankingResponse (intentResult : IntentResult) (apiResponse : value)
  : result string :=
  let intent := intent intentResult in
  let parameters := parameters intentResult in
  if String.eqb intent "account.balance" then
    balance ← optprop apiResponse "balance";
    if truthy balance then
      fixed ← call_toFixed "apiResponse.balance" balance 2;
      Return ("Your account balance is $" ++ fixed)
    else
      Return "I can help you check your account balance. Please wait while I retrieve this information."
  else if String.eqb intent "payment.transfer" then
    amountOfMoney ← prop parameters "amount-of-money";
    moneyAmount ← optprop amountOfMoney "amount";
    amount ← (if truthy moneyAmount then Return moneyAmount else prop parameters "amount");
    recipient ← prop parameters "recipient";
    success ← optprop apiResponse "success";
    if truthy success then
      amountText ← ToString amount;
      recipientText ← ToString recipient;
      transactionId ← prop apiResponse "transactionId";
      transactionIdText ← ToString transactionId;
      Return ("Successfully transferred $" ++ amountText ++ " to " ++ recipientText
              ++ ". Transaction ID: " ++ transactionIdText)
    else
      amountText ← ToString amount;
      recipientText ← ToString recipient;
      Return ("I'll help you transfer $" ++ amountText ++ " to " ++ recipientText
              ++ ". Please confirm this transaction.")
  else if String.eqb intent "card.block" then
    cardTypeParam ← prop parameters "card-type";
    let cardType := cardTypeParam ||| Str "card" in
    success ← optprop apiResponse "success";
    if truthy success then
      cardTypeText ← ToString cardType;
      Return ("Your " ++ cardTypeText
              ++ " has been successfully blocked for security. A replacement card will be sent to you.")
    else
      cardTypeText ← ToString cardType;
      Return ("I'll block your " ++ cardTypeText
              ++ " immediately for security. This action cannot be undone.")
  else if String.eqb intent "dispute.create" then
    disputeId ← optprop apiResponse "disputeId";
    if truthy disputeId then
      disputeIdText ← ToString disputeId;
      Return ("Dispute filed successfully. Reference number: " ++ disputeIdText
              ++ ". We'll investigate and contact you within 5-7 business days.")
    else
      Return "I'll help you file a dispute for this transaction. Please provide details about the disputed charge."
  else if String.eqb intent "fraud.report" then
    reportId ← optprop apiResponse "reportId";
    if truthy reportId then
      reportIdText ← ToString reportId;
      Return ("Fraud report filed. Reference: " ++ reportIdText
              ++ ". Your account has been flagged for monitoring. Please change your passwords immediately.")
    else
      Return "I understand you need to report fraud. This is serious - I'll immediately flag your account and start the investigation process."
  else
    Return (if String.eqb (fulfillmentText intentResult) ""
            then "I can help you with that. Let me process your request."
            else fulfillmentText intentResult).

(** [createDialogFlowConfig(projectId, sessionId, languageCode = 'en')]:
    the default applies when the argument is omitted or [undefined]. *)
Definition createDialogFlowConfig (projectId sessionId : string)
           (languageCode : option string) : DialogFlowConfig :=
  {| projectId := projectId;
     sessionId := sessionId;
     languageCode := match languageCode with
                     | Some code => code
                     | None => "en"
                     end |}.

End DialogFlowService.

(** ** [dialogflow.js] (backend service): the second copy of the normalizer *)

Module MCPDialogFlowService.

Import DialogFlowService.

Definition extractField (extracted : value) (entry : string * value) : result value :=
  let '(key, field) := entry in
  stringValue ← prop field "stringValue";
  if negb (is_undefined stringValue) then
    Return (Put extracted key stringValue)
  else
    numberValue ← prop field "numberValue";
    if negb (is_undefined numberValue) then
      Return (Put extracted key numberValue)
    else
      structValue ← prop field "structValue";
      (* field.structValue && field.structValue.fields *)
      guard ← (if truthy structValue then prop structValue "fields" else Return structValue);
      if truthy guard then
        fields ← prop structValue "fields";
        amount ← prop fields "amount";
        if truthy amount then
          amountNumber ← prop amount "numberValue";
          currency ← prop fields "currency";
          currencyString ← optprop currency "stringValue";
          Return (Put extracted key
                    (literal [ ("amount", amountNumber);
                               ("currency", currencyString ||| Str "USD") ]))
        else Return extracted
      else Return extracted.

Definition extractParameters (parameters : value) : result value :=
  if negb (truthy parameters) then Return (literal [])
  else
    fields ← prop parameters "fields";
    if negb (truthy fields) then Return (literal [])
    else forEach (entries fields) extractField (literal []).

Record t := {
  projectId : string;
  sessionClient : Provider.SessionsClient
}.

(** What [processNaturalLanguage] returns. *)
Record Processed := {
  intent : string;
  confidence : float;
  parameters : value;
  mcpAction : jsany;
  fulfillmentText : Provider.nullable string
}.

(** An entry [{ tool, args }] of the action map. *)
Definition action (tool : string) (args : list (string * value)) : value :=
  literal [ ("tool", Str tool); ("args", literal args) ].

(** [mapToMCPAction(intent, parameters, userId)].  The action map is an
    object literal built on every call: the arguments of all nine entries
    are read from [parameters], in the order of the source, before the
    lookup. *)
Definition mapToMCPAction (intent : string) (parameters userId : value) : result jsany :=
  (* 'account.balance' *)
  balanceAccountType ← prop parameters "account-type";
  balanceAccountNumber ← prop parameters "account-number";
  (* 'transaction.history' *)
  historyAccountNumber ← prop parameters "account-number";
  historyDateRange ← prop parameters "date-period";
  (* 'payment.transfer' *)
  transferMoney ← prop parameters "amount-of-money";
  transferAmount ← optprop transferMoney "amount";
  transferMoney' ← prop parameters "amount-of-money";
  transferCurrency ← optprop transferMoney' "currency";
  transferRecipient ← prop parameters "recipient";
  transferFromAccount ← prop parameters "from-account";
  (* 'payment.bill' *)
  billType ← prop parameters "bill-type";
  billMoney ← prop parameters "amount-of-money";
  billAmount ← optprop billMoney "amount";
  billMoney' ← prop parameters "amount-of-money";
  billCurrency ← optprop billMoney' "currency";
  (* 'card.status' *)
  statusCardType ← prop parameters "card-type";
  statusCardNumber ← prop parameters "card-number";
  (* 'card.block' *)
  blockCardType ← prop parameters "card-type";
  blockCardNumber ← prop parameters "card-number";
  (* 'dispute.create' *)
  disputeMoney ← prop parameters "amount-of-money";
  disputeAmount ← optprop disputeMoney "amount";
  disputeMerchant ← prop parameters "merchant";
  (* 'account.statement' *)
  statementAccountNumber ← prop parameters "account-number";
  statementPeriod ← prop parameters "date-period";
  let actionMap :=
    literal [
      ("account.balance",
       action "get_account_balance"
         [ ("userId", userId);
           ("accountType", balanceAccountType);
           ("accountNumber", balanceAccountNumber) ]);
      ("transaction.history",
       action "get_transactions"
         [ ("userId", userId);
           ("accountNumber", historyAccountNumber);
           ("dateRange", historyDateRange);
           ("limit", Number 20) ]);
      ("payment.transfer",
       action "create_transfer"
         [ ("userId", userId);
           ("amount", transferAmount);
           ("currency", transferCurrency ||| Str "USD");
           ("recipient", transferRecipient);
           ("fromAccount", transferFromAccount) ]);
      ("payment.bill",
       action "pay_bill"
         [ ("userId", userId);
           ("billType", billType);
           ("amount", billAmount);
           ("currency", billCurrency ||| Str "USD") ]);
      ("card.status",
       action "get_card_status"
         [ ("userId", userId);
           ("cardType", statusCardType);
           ("lastFourDigits", statusCardNumber) ]);
      ("card.block",
       action "block_card"
         [ ("userId", userId);
           ("cardType", blockCardType);
           ("lastFourDigits", blockCardNumber);
           ("reason", Str "user_requested") ]);
      ("dispute.create",
       action "create_dispute"
         [ ("userId", userId);
           ("amount", disputeAmount);
           ("merchant", disputeMerchant);
           ("reason", Str "unauthorized_transaction") ]);
      ("fraud.report",
       action "report_fraud"
         [ ("userId", userId);
           ("type", Str "account_compromise");
           ("urgent", Bool true) ]);
      ("account.statement",
       action "generate_statement"
         [ ("userId", userId);
           ("accountNumber", statementAccountNumber);
           ("period", statementPeriod ||| Str "current_month") ])
    ] in
  let found := Get actionMap intent in
  Return (if truthy_any found then found
          else Data (action "unknown_intent"
                       [ ("intent", Str intent);
                         ("parameters", parameters);
                         ("userId", userId) ])).

(** The request [processNaturalLanguage] sends: the language is fixed. *)
Definition request (this : t) (message sessionId : string) : Provider.DetectIntentRequest :=
  {| Provider.session :=
       Provider.projectAgentSessionPath (sessionClient this) (projectId this) sessionId;
     Provider.text := message;
     Provider.languageCode := "en" |}.

(** [processNaturalLanguage(message, sessionId, userId)]: the [catch]
    logs the error and throws it again, unchanged. *)
Definition processNaturalLanguage (this : t) (message sessionId : string) (userId : value)
  : result Processed :=
  try_catch
    (response ← Provider.await
                  (Provider.detectIntent (sessionClient this) (request this message sessionId));
     match Provider.queryResult response with
     | Provider.undefined | Provider.null =>
         Throw (Error "No query result from DialogFlow")
     | Provider.present queryResult =>
         let intent :=
           Provider.string_or (intent_displayName queryResult) "unknown" in
         let confidence :=
           Provider.number_or (Provider.intentDetectionConfidence queryResult) 0 in
         parameters ← extractParameters (Provider.parameters queryResult);
         mcpAction ← mapToMCPAction intent parameters userId;
         Return {| intent := intent;
                   confidence := confidence;
                   parameters := parameters;
                   mcpAction := mcpAction;
                   fulfillmentText := Provider.fulfillmentText queryResult |}
     end)
    (fun error => Throw error).

End MCPDialogFlowService.

(** ** [useDialogFlow.ts]: the React hook around [detectIntent] *)

Module UseDialogFlow.

Import DialogFlowService.

Record UseDialogFlowOptions := {
  projectId : string;
  sessionId : string;
  languageCode : option string
}.

Record DialogFlowState := {
  isProcessing : bool;
  lastIntent : option string;
  confidence : float;
  error : option string
}.

(** The state the hook starts with. *)
Definition initialState : DialogFlowState :=
  {| isProcessing := false; lastIntent := None; confidence := 0; error := None |}.

(** The service the hook creates, given the client that service creates. *)
Definition service (client : Provider.SessionsClient) (options : UseDialogFlowOptions)
  : DialogFlowService.t :=
  new client (createDialogFlowConfig (projectId options) (sessionId options)
                                     (languageCode options)).

(** The three state updates of [processMessage], each a function of the
    previous state as [setState] receives it. *)
Definition started (prev : DialogFlowState) : DialogFlowState :=
  {| isProcessing := true;
     lastIntent := lastIntent prev;
     confidence := confidence prev;
     error := None |}.

Definition succeeded (result : IntentResult) (prev : DialogFlowState) : DialogFlowState :=
  {| isProcessing := false;
     lastIntent := Some (DialogFlowService.intent result);
     confidence := DialogFlowService.confidence result;
     error := None |}.

Definition failed (errorMessage : string) (prev : DialogFlowState) : DialogFlowState :=
  {| isProcessing := false;
     lastIntent := lastIntent prev;
     confidence := confidence prev;
     error := Some errorMessage |}.

(** [processMessage(message)]: the state after its updates, and what it
    returns or throws.  Every exception of this universe is an instance
    of [Error], so [errorMessage] is its message. *)
Definition processMessage (dialogFlowService : DialogFlowService.t) (message : string)
           (state : DialogFlowState) : DialogFlowState * result IntentResult :=
  let state := started state in
  match detectIntent dialogFlowService message with
  | Return result => (succeeded result state, Return result)
  | Throw error => (failed (message_of error) state, Throw error)
  end.

End UseDialogFlow.

(** ** The confidence policy of the integration README *)

Module Readme.

Import DialogFlowService.

Definition HIGH_CONFIDENCE : float := 0.8.
Definition MEDIUM_CONFIDENCE : float := 0.6.
Definition LOW_CONFIDENCE : float := 0.4.

(** The three handlers [handleIntent] can invoke, with their argument. *)
Inductive call :=
| executeAction (result : IntentResult)
| askForConfirmation (result : IntentResult)
| requestClarification (result : IntentResult).

(** [handleIntent(result)], as the list of handler calls it makes. *)
Definition handleIntent (result : IntentResult) : list call :=
  if (HIGH_CONFIDENCE <=? confidence result)%float then
    if (String.prefix "account." (intent result)
        || String.eqb (intent result) "general.help")%bool
    then [executeAction result]
    else []
  else if (MEDIUM_CONFIDENCE <=? confidence result)%float then
    [askForConfirmation result]
  else
    [requestClarification result].

(** What [handleChatMessage] returns: [response] is there when the MCP
    action was executed. *)
Record ChatReply := {
  reply_intent : string;
  reply_confidence : float;
  reply_response : option value;
  reply_fulfillmentText : Provider.nullable string
}.

(** [handleChatMessage(message, sessionId, userId)] of the MCP server
    example; [executeMCPAction] is the server's own function. *)
Definition handleChatMessage (dialogFlowService : MCPDialogFlowService.t)
           (executeMCPAction : jsany -> result value)
           (message sessionId : string) (userId : value) : result ChatReply :=
  try_catch
    (result ← MCPDialogFlowService.processNaturalLanguage
                dialogFlowService message sessionId userId;
     if (truthy_any (MCPDialogFlowService.mcpAction result)
         && (0.7 <? MCPDialogFlowService.confidence result)%float)%bool
     then
       response ← executeMCPAction (MCPDialogFlowService.mcpAction result);
       Return {| reply_intent := MCPDialogFlowService.intent result;
                 reply_confidence := MCPDialogFlowService.confidence result;
                 reply_response := Some response;
                 reply_fulfillmentText := MCPDialogFlowService.fulfillmentText result |}
     else
       Return {| reply_intent := MCPDialogFlowService.intent result;
                 reply_confidence := MCPDialogFlowService.confidence result;
                 reply_response := None;
                 reply_fulfillmentText := MCPDialogFlowService.fulfillmentText result |})
    (fun error => Throw error).

(** A chat message [{ text, isBot }]. *)
Record Message := {
  text : string;
  isBot : bool
}.

(** The state [handleMessage] acts on: the messages shown, the hook's
    state, and the banking API calls made so far. *)
Record ChatBot := {
  messages : list Message;
  hook : UseDialogFlow.DialogFlowState;
  apiCalls : list IntentResult
}.

(** [handleMessage(message)] of the chat component example.
    [isAuthenticated] and [executeAPICall] are the component's own; every
    exception is caught and logged. *)
Definition handleMessage (dialogFlowService : DialogFlowService.t)
           (isAuthenticated : bool) (executeAPICall : IntentResult -> result value)
           (message : string) (chat : ChatBot) : ChatBot :=
  let '(hook', outcome) :=
    UseDialogFlow.processMessage dialogFlowService message (hook chat) in
  match outcome with
  | Throw error =>
      {| messages := messages chat; hook := hook'; apiCalls := apiCalls chat |}
  | Return result =>
      if (truthy (requiresAuth result) && negb isAuthenticated)%bool then
        {| messages := messages chat; hook := hook'; apiCalls := apiCalls chat |}
      else if truthy (apiEndpoint result) then
        let called := (apiCalls chat ++ [result])%list in
        match executeAPICall result ≫= formatBankingResponse result with
        | Return formattedResponse =>
            {| messages :=
                 (messages chat ++ [ {| text := formattedResponse; isBot := true |} ])%list;
               hook := hook';
               apiCalls := called |}
        | Throw error =>
            {| messages := messages chat; hook := hook'; apiCalls := called |}
        end
      else
        {| messages :=
             (messages chat ++ [ {| text := fulfillmentText result; isBot := true |} ])%list;
           hook := hook';
           apiCalls := apiCalls chat |}
  end.

End Readme.


(** ** Auxiliary definitions used by the statements and proofs *)

(** What the [forEach] callback of [extractParameters] stores for one
    field that is not [null] or [undefined] ([None]: nothing is stored). *)
Definition normalizedField (field : value) : option value :=
  if negb (is_undefined (read field "stringValue")) then Some (read field "stringValue")
  else if negb (is_undefined (read field "numberValue")) then Some (read field "numberValue")
  else
    let structValue := read field "structValue" in
    let fields := read structValue "fields" in
    let amount := if nullish fields then Undefined else read fields "amount" in
    if (truthy structValue && truthy amount)%bool then
      let currency := read fields "currency" in
      Some (literal [ ("amount", read amount "numberValue");
                      ("currency", (if nullish currency then Undefined
                                    else read currency "stringValue") ||| Str "USD") ])
    else None.

(** The callback as a function without exceptions. *)
Definition storeField (extracted : value) (entry : string * value) : value :=
  match normalizedField entry.2 with
  | Some v => Put extracted entry.1 v
  | None => extracted
  end.

Definition is_object (v : value) : bool :=
  match v with
  | Object _ _ _ => true
  | _ => false
  end.

(** An object that inherits from [Object.prototype] directly and has no
    own property called [__proto__]: every object literal of the programs. *)
Definition plain_object (v : value) : Prop :=
  exists own created,
    v = Object ObjectPrototype own created /\ own !! "__proto__" = None.

(** The provider's struct is well formed when each of its fields holds a
    value object (a protobuf [Value]), never [null] or [undefined]. *)
Definition fields_present (fields : gmap string value) : Prop :=
  map_Forall (fun _ field => nullish field = false) fields.

(** A field whose payload is a nested composite with an [amount]
    sub-field: no [stringValue], no [numberValue], and a [structValue]
    whose [fields] hold the sub-field [amount] (a value object) and,
    possibly, [currency]. *)
Definition money_payload (field amount currency : value) : Prop :=
  read field "stringValue" = Undefined /\
  read field "numberValue" = Undefined /\
  truthy (read field "structValue") = true /\
  nullish (read (read field "structValue") "fields") = false /\
  read (read (read field "structValue") "fields") "amount" = amount /\
  truthy amount = true /\
  read (read (read field "structValue") "fields") "currency" = currency.


(** [currency?.stringValue || 'USD'] *)
Definition currency_code (currency : value) : value :=
  (if nullish currency then Undefined else read currency "stringValue") ||| Str "USD".

(** The money value [{ amount, currency }] the normalizer builds. *)
Definition money (amount currency : value) : value :=
  literal [ ("amount", amount); ("currency", currency) ].

(** *** Example inputs *)

(** The provider's encoding of a money amount with no currency:
    [{ structValue: { fields: { amount: { numberValue: x } } } }]. *)
Definition amount_only (x : float) : value :=
  literal [ ("structValue",
             literal [ ("fields",
                        literal [ ("amount", literal [ ("numberValue", Number x) ]) ]) ]) ].

(** A raw parameter struct with the single field [amount-of-money]. *)
Definition struct_with_amount (x : float) : value :=
  literal [ ("fields", literal [ ("amount-of-money", amount_only x) ]) ].


(** *** The intents *)

(** The twelve keys of [intentMapping]. *)
Definition known_intents : list string :=
  [ "auth.login"; "account.balance"; "transaction.history"; "payment.transfer";
    "payment.bill"; "card.status"; "card.block"; "dispute.create"; "fraud.report";
    "account.statement"; "general.greeting"; "general.help" ].

(** The intents whose operation changes state (permission [write:...]). *)
Definition state_changing_intents : list string :=
  [ "payment.transfer"; "payment.bill"; "card.block"; "dispute.create"; "fraud.report" ].

(** The names every object literal inherits from [Object.prototype]. *)
Definition inherited_names : list string :=
  "__proto__" :: ObjectPrototype_methods.

(** The fail-closed default descriptor. *)
Definition default_descriptor : value :=
  DialogFlowService.descriptor true Null Null.

(** An [IntentResult] as the README's handler sees it: the intent name
    and the confidence, with the table's descriptor for the intent. *)
Definition recognized (intent : string) (confidence : float) : DialogFlowService.IntentResult :=
  {| DialogFlowService.intent := intent;
     DialogFlowService.confidence := confidence;
     DialogFlowService.parameters := literal [];
     DialogFlowService.fulfillmentText := "";
     DialogFlowService.requiresAuth :=
       read (read DialogFlowService.intentMapping intent) "requiresAuth";
     DialogFlowService.apiEndpoint :=
       read (read DialogFlowService.intentMapping intent) "apiEndpoint";
     DialogFlowService.permission :=
       read (read DialogFlowService.intentMapping intent) "permission" |}.

(** *** Example provider responses *)

(** A client whose [detectIntent] resolves with [response]. *)
Definition client_resolving (response : Provider.DetectIntentResponse)
  : Provider.SessionsClient :=
  {| Provider.projectAgentSessionPath :=
       fun project session => "projects/" ++ project ++ "/agent/sessions/" ++ session;
     Provider.detectIntent := fun _ => Provider.Resolved response |}.

(** A client whose [detectIntent] rejects with [reason]. *)
Definition client_rejecting (reason : exn) : Provider.SessionsClient :=
  {| Provider.projectAgentSessionPath :=
       fun project session => "projects/" ++ project ++ "/agent/sessions/" ++ session;
     Provider.detectIntent := fun _ => Provider.Rejected reason |}.

Definition example_config : DialogFlowService.DialogFlowConfig :=
  {| DialogFlowService.projectId := "enterprise-banking-chatbot";
     DialogFlowService.sessionId := "user-1";
     DialogFlowService.languageCode := "en" |}.

(** A response whose query result carries no intent, no confidence, no
    parameters and no fulfillment text. *)
Definition response_without_intent : Provider.DetectIntentResponse :=
  {| Provider.queryResult :=
       Provider.present
         {| Provider.intent := Provider.undefined;
            Provider.intentDetectionConfidence := Provider.undefined;
            Provider.parameters := Undefined;
            Provider.fulfillmentText := Provider.undefined |} |}.

(** A response with no query result at all. *)
Definition response_without_result : Provider.DetectIntentResponse :=
  {| Provider.queryResult := Provider.undefined |}.

(** A member of the provider's response that is not there. *)
(** A query result with no intent, no confidence and no fulfillment
    text, and the given raw parameters. *)
Definition query_without_intent (parameters : value) : Provider.QueryResult :=
  {| Provider.intent := Provider.undefined;
     Provider.intentDetectionConfidence := Provider.undefined;
     Provider.parameters := parameters;
     Provider.fulfillmentText := Provider.undefined |}.

(** A response without an intent one of whose parameter fields is [null]. *)
Definition response_without_intent_null_field : Provider.DetectIntentResponse :=
  {| Provider.queryResult :=
       Provider.present
         (query_without_intent (literal [ ("fields", literal [ ("broken", Null) ]) ])) |}.

Definition absent {A} (x : Provider.nullable A) : Prop :=
  x = Provider.undefined \/ x = Provider.null.

(** *** Rendered amounts *)

Definition is_digit (c : ascii) : bool :=
  (Nat.leb 48 (nat_of_ascii c) && Nat.leb (nat_of_ascii c) 57)%bool.

Fixpoint all_digits (s : string) : bool :=
  match s with
  | EmptyString => true
  | String c s' => (is_digit c && all_digits s')%bool
  end.

(** The text after the first decimal point of [s], if it has one. *)
Fixpoint decimals (s : string) : option string :=
  match s with
  | EmptyString => None
  | String c s' => if Ascii.eqb c "." then Some s' else decimals s'
  end.

(** [s] has exactly two decimal places: two digits follow its decimal
    point, and nothing else. *)
Definition two_decimal_places (s : string) : Prop :=
  exists d1 d2, decimals s = Some (String d1 (String d2 ""))
                /\ is_digit d1 = true /\ is_digit d2 = true.

(** The result of recognizing a transfer request: the money parameter
    with its currency code, and the recipient. *)
Definition transfer_request (amount : float) (currency recipient : string)
  : DialogFlowService.IntentResult :=
  {| DialogFlowService.intent := "payment.transfer";
     DialogFlowService.confidence := 0.95;
     DialogFlowService.parameters :=
       literal [ ("amount-of-money", money (Number amount) (Str currency));
                 ("recipient", Str recipient) ];
     DialogFlowService.fulfillmentText := "";
     DialogFlowService.requiresAuth := Bool true;
     DialogFlowService.apiEndpoint := Str "/api/balance-transfers";
     DialogFlowService.permission := Str "write:transfer" |}.

(** *** Definitions for the further properties *)

(** [v?.k] as a value. *)
Definition optread (v : value) (k : string) : value :=
  if nullish v then Undefined else read v k.

(** A field whose payload is a scalar: a [stringValue], or failing that
    a [numberValue], that is not [undefined]. *)
Definition scalar_payload (field v : value) : Prop :=
  v <> Undefined /\
  (read field "stringValue" = v
   \/ (read field "stringValue" = Undefined /\ read field "numberValue" = v)).

(** The intents of the table that need no authentication. *)
Definition public_intents : list string :=
  [ "auth.login"; "general.greeting"; "general.help" ].

(** The intents [formatBankingResponse] has a template for. *)
Definition templated_intents : list string :=
  [ "account.balance"; "payment.transfer"; "card.block"; "dispute.create"; "fraud.report" ].

(** The nine keys of the action map of [mapToMCPAction]. *)
Definition mcp_intents : list string :=
  [ "account.balance"; "transaction.history"; "payment.transfer"; "payment.bill";
    "card.status"; "card.block"; "dispute.create"; "fraud.report"; "account.statement" ].

(** The fallback action of [mapToMCPAction]. *)
Definition unknown_action (intent : string) (parameters userId : value) : value :=
  MCPDialogFlowService.action "unknown_intent"
    [ ("intent", Str intent); ("parameters", parameters); ("userId", userId) ].

(** [bankingIntent.k], for the descriptor [mapToBankingOperation] finds
    for [intent], as a value. *)
Definition descriptor_member (intent k : string) : value :=
  match DialogFlowService.mapToBankingOperation intent Undefined with
  | Data d => read d k
  | BuiltinFunction _ => Undefined
  end.

(** A raw parameter struct with an empty string and a zero. *)
Definition struct_with_scalars : value :=
  literal [ ("fields",
             literal [ ("note", literal [ ("stringValue", Str "") ]);
                       ("count", literal [ ("numberValue", Number 0) ]) ]) ].

(** A raw parameter struct one of whose fields is [null]. *)
Definition struct_with_null : value :=
  literal [ ("fields", literal [ ("broken", Null) ]) ].

(** A money amount whose [currency] sub-field is [currency]. *)
Definition amount_with_currency (x : float) (currency : value) : value :=
  literal [ ("structValue",
             literal [ ("fields",
                        literal [ ("amount", literal [ ("numberValue", Number x) ]);
                                  ("currency", currency) ]) ]) ].

(** A response for the intent [name] with the given confidence and raw
    parameters. *)
Definition response_for (name : string) (confidence : Provider.nullable float)
           (parameters : value) : Provider.DetectIntentResponse :=
  {| Provider.queryResult :=
       Provider.present
         {| Provider.intent := Provider.present {| Provider.displayName := Provider.present name |};
            Provider.intentDetectionConfidence := confidence;
            Provider.parameters := parameters;
            Provider.fulfillmentText := Provider.present "One moment." |} |}.

(** The result of recognizing a request to block a card of some type. *)
Definition card_block_request (cardType : string) : DialogFlowService.IntentResult :=
  {| DialogFlowService.intent := "card.block";
     DialogFlowService.confidence := 0.95;
     DialogFlowService.parameters := literal [ ("card-type", Str cardType) ];
     DialogFlowService.fulfillmentText := "";
     DialogFlowService.requiresAuth := Bool true;
     DialogFlowService.apiEndpoint := Str "/api/cards/block";
     DialogFlowService.permission := Str "write:card" |}.

(** A backend service around the given client. *)
Definition backend (client : Provider.SessionsClient) : MCPDialogFlowService.t :=
  {| MCPDialogFlowService.projectId := "enterprise-banking-chatbot";
     MCPDialogFlowService.sessionClient := client |}.

(** The chat component before the first message. *)
Definition empty_chat : Readme.ChatBot :=
  {| Readme.messages := [];
     Readme.hook := UseDialogFlow.initialState;
     Readme.apiCalls := [] |}.

(** A returned text is not empty. *)
Definition nonempty_result (r : result string) : Prop :=
  forall text, r = Return text -> text <> "".

(** One step of evaluation of a body of binds inside a [try]. *)
Ltac run := cbn [Provider.await mbind result_bind try_catch].

(** *** Proof steps *)

(** Membership in, and absence from, a list of string literals. *)
Ltac in_literals :=
  repeat (first [ apply list_elem_of_here | apply list_elem_of_further ]).
Ltac not_in_literals :=
  let H := fresh in
  intros H;
  repeat (apply elem_of_cons in H as [H|H]; [discriminate H|]);
  by apply elem_of_nil in H.

(** ** Facts about the JavaScript operations *)

Lemma prop_Return v k : nullish v = false -> prop v k = Return (read v k).
Proof. destruct v; simpl; intros; congruence. Qed.

Lemma truthy_not_nullish v : truthy v = true -> nullish v = false.
Proof. destruct v; simpl; intros; congruence. Qed.

Lemma optprop_spec v k :
  optprop v k = Return (if nullish v then Undefined else read v k).
Proof.
  unfold optprop. destruct (nullish v) eqn:E; [reflexivity|]. by apply prop_Return.
Qed.

Lemma falsy_read v k : truthy v = false -> nullish v = false -> read v k = Undefined.
Proof. destruct v; simpl; intros; try congruence; reflexivity. Qed.

Lemma Get_own p own created k v :
  own !! k = Some v -> Get (Object p own created) k = Data v.
Proof. intros H. unfold Get. simpl. by rewrite H. Qed.

Lemma Put_own_other o k v key :
  k <> key -> own_property (Put o k v) key = own_property o key.
Proof.
  intros Hk. destruct o; simpl; try reflexivity.
  destruct (_ && _)%bool.
  - destruct v; reflexivity.
  - simpl. by rewrite lookup_insert_ne.
Qed.

Lemma Put_own_same p own created k v :
  k <> "__proto__" -> own_property (Put (Object p own created) k v) k = Some v.
Proof.
  intros Hk. unfold Put.
  destruct (String.eqb_spec k "__proto__") as [->|_]; [done|].
  simpl. by rewrite lookup_insert_eq.
Qed.

Lemma Put_object o k v : is_object o = true -> is_object (Put o k v) = true.
Proof.
  destruct o; simpl; try done. intros _.
  destruct (_ && _)%bool; [destruct v|]; reflexivity.
Qed.

(** *** The keys of an object and their order *)

(** [Object.keys] lists every own key once, whatever the order. *)
Lemma own_keys_Permutation own created :
  own_keys own created ≡ₚ (map_to_list own).*1.
Proof.
  unfold own_keys.
  set (listed := remove_dups (filter (fun k => is_Some (own !! k)) created)).
  set (unlisted := filter (fun k => k ∉ created) (map_to_list own).*1).
  rewrite merge_sort_Permutation, filter_app_complement.
  apply NoDup_Permutation.
  - apply NoDup_app. split; [apply NoDup_remove_dups|]. split.
    + intros k Hl Hu. apply elem_of_remove_dups, list_elem_of_filter in Hl as [_ Hl].
      apply list_elem_of_filter in Hu as [Hu _]. contradiction.
    + apply NoDup_filter, NoDup_fst_map_to_list.
  - apply NoDup_fst_map_to_list.
  - intros k. rewrite elem_of_app. unfold listed, unlisted.
    rewrite elem_of_remove_dups, !list_elem_of_filter.
    assert (k ∈ (map_to_list own).*1 <-> is_Some (own !! k)) as ->.
    { rewrite list_elem_of_fmap. split.
      - intros ([k' v] & -> & Hin). apply elem_of_map_to_list in Hin. by exists v.
      - intros [v Hv]. exists (k, v). split; [reflexivity|by apply elem_of_map_to_list]. }
    destruct (decide (k ∈ created)); tauto.
Qed.

Lemma omap_lookup_keys (own : gmap string value) (l : list (string * value)) :
  (forall k v, (k, v) ∈ l -> own !! k = Some v) ->
  omap (fun k => pair k <$> own !! k) l.*1 = l.
Proof.
  induction l as [|[k v] l IH]; intros Hl; [reflexivity|]. simpl.
  rewrite (Hl k v) by apply list_elem_of_here. simpl. f_equal.
  apply IH. intros k' v' Hin. apply Hl. by apply list_elem_of_further.
Qed.

Lemma entries_Permutation p own created :
  entries (Object p own created) ≡ₚ map_to_list own.
Proof.
  unfold entries. rewrite own_keys_Permutation. rewrite omap_lookup_keys; [reflexivity|].
  intros k v. apply elem_of_map_to_list.
Qed.

Lemma elem_of_entries p own created k v :
  (k, v) ∈ entries (Object p own created) <-> own !! k = Some v.
Proof. rewrite entries_Permutation. apply elem_of_map_to_list. Qed.

Lemma NoDup_fst_entries p own created : NoDup (entries (Object p own created)).*1.
Proof. rewrite entries_Permutation. apply NoDup_fst_map_to_list. Qed.

(** For instance: the array indices first, in ascending order, then the
    other keys as created; a key assigned anew comes last, a key assigned
    again stays where it is. *)
Lemma entries_order :
  (entries (Put (Put (literal [ ("b", Null); ("a", Undefined); ("10", Null); ("2", Null) ])
                     "c" Null)
                "b" Undefined)).*1
  = [ "2"; "10"; "b"; "a"; "c" ].
Proof. vm_compute. reflexivity. Qed.

Lemma entries_literal_nil : entries (literal []) = [].
Proof.
  apply Permutation_nil_r. unfold literal. rewrite entries_Permutation.
  simpl. by rewrite map_to_list_empty.
Qed.

(** *** Binary64 numbers and decimal fractions *)

Lemma pow2_mod5 (n : nat) : ((2 ^ Z.of_nat n) mod 5 <> 0)%Z.
Proof.
  induction n as [|n IH]; [discriminate|].
  rewrite Nat2Z.inj_succ, Z.pow_succ_r by lia.
  rewrite Z.mul_mod by lia.
  pose proof (Z.mod_pos_bound (2 ^ Z.of_nat n) 5 ltac:(lia)) as Hb.
  set (r := (2 ^ Z.of_nat n mod 5)%Z) in *.
  assert (r = 1 \/ r = 2 \/ r = 3 \/ r = 4)%Z as Hr by lia.
  destruct Hr as [-> | [-> | [-> | ->]]]; discriminate.
Qed.

Lemma ten_times_not_pow2 (p : positive) (z : Z) : (10 * z <> 2 ^ Z.pos p)%Z.
Proof.
  intros H. apply (pow2_mod5 (Pos.to_nat p)).
  rewrite positive_nat_Z, <- H.
  replace (10 * z)%Z with ((2 * z) * 5)%Z by lia. apply Z.mod_mul. lia.
Qed.

(** No binary64 number is exactly one tenth: ten cents have no exact
    representation as a JavaScript number. *)
Lemma tenth_not_binary64 (x : float) (q : Q) :
  exact x = Some q -> ~ (q == 1 # 10)%Q.
Proof.
  unfold exact. destruct (Prim2SF x) as [s|s| |s m e]; try discriminate.
  - intros [= <-] H. discriminate H.
  - intros [= <-] H. set (z := if s then Z.neg m else Z.pos m) in *.
    destruct e as [|p|p].
    + change (Qpower 2 0) with 1%Q in H. rewrite Qmult_1_r in H.
      unfold Qeq in H. simpl in H. lia.
    + rewrite <- (Zpower_Qpower 2 (Z.pos p)) in H by lia.
      rewrite <- inject_Z_mult in H. unfold Qeq in H. simpl in H.
      pose proof (Z.pow_pos_nonneg 2 (Z.pos p) ltac:(lia) ltac:(lia)). nia.
    + change (Qpower 2 (Z.neg p)) with (/ Qpower 2 (Z.pos p))%Q in H.
      rewrite <- (Zpower_Qpower 2 (Z.pos p)) in H by lia.
      pose proof (Z.pow_pos_nonneg 2 (Z.pos p) ltac:(lia) ltac:(lia)) as Hpos.
      assert (inject_Z z == (1 # 10) * inject_Z (2 ^ Z.pos p))%Q as H'.
      { rewrite <- H. field. intros Hz. unfold Qeq in Hz. simpl in Hz. lia. }
      unfold Qeq in H'. simpl in H'.
      apply (ten_times_not_pow2 p z). lia.
Qed.

(** *** Decimal places of [toFixed] *)

Lemma length_append s t :
  String.length (s ++ t) = (String.length s + String.length t)%nat.
Proof. induction s as [|c s IH]; simpl; auto. Qed.

Lemma length_zeros n : String.length (zeros n) = n.
Proof. induction n; simpl; auto. Qed.

Lemma all_digits_app s t : all_digits (s ++ t) = (all_digits s && all_digits t)%bool.
Proof. induction s as [|c s IH]; simpl; [reflexivity|]. by rewrite IH, andb_assoc. Qed.

Lemma all_digits_zeros n : all_digits (zeros n) = true.
Proof. induction n; simpl; auto. Qed.

Lemma all_digits_uint d : all_digits (NilEmpty.string_of_uint d) = true.
Proof. induction d; simpl; auto. Qed.

Lemma all_digits_digits n : all_digits (digits n) = true.
Proof.
  unfold digits, NilZero.string_of_uint.
  destruct (N.to_uint n); try reflexivity; apply (all_digits_uint (_ _)).
Qed.

Lemma digits_nonempty n : (1 <= String.length (digits n))%nat.
Proof.
  unfold digits, NilZero.string_of_uint.
  destruct (N.to_uint n); simpl; lia.
Qed.

Lemma all_digits_substring s : forall i n,
  all_digits s = true -> all_digits (substring i n s) = true.
Proof.
  induction s as [|c s IH]; intros i n H; destruct i, n; simpl in *; auto;
    apply andb_true_iff in H as [Hc Hs]; auto.
  rewrite Hc. simpl. auto.
Qed.

Lemma length_substring s : forall i n,
  (i + n <= String.length s)%nat -> String.length (substring i n s) = n.
Proof.
  induction s as [|c s IH]; intros i n H; destruct i, n; simpl in *; auto; try lia.
  all: try (f_equal; apply (IH 0%nat); lia).
  all: apply IH; lia.
Qed.

Lemma decimals_after int t :
  all_digits int = true -> decimals (int ++ "." ++ t) = Some t.
Proof.
  induction int as [|c int IH]; simpl; [reflexivity|].
  intros H. apply andb_true_iff in H as [Hc Hs].
  destruct (Ascii.eqb_spec c "."); [subst; discriminate Hc|]. auto.
Qed.

(** With two fraction digits, step 10 of toFixed yields digits, a point,
    and two digits. *)
Lemma fixed_digits_two n :
  two_decimal_places (fixed_digits n 2) /\ two_decimal_places ("-" ++ fixed_digits n 2).
Proof.
  unfold two_decimal_places. change (decimals ("-" ++ ?s)) with (decimals s).
  cut (exists d1 d2, decimals (fixed_digits n 2) = Some (String d1 (String d2 ""))
       /\ is_digit d1 = true /\ is_digit d2 = true); [intros H; split; exact H|].
  unfold fixed_digits. cbn [Nat.eqb].
  pose proof (all_digits_digits n) as Hd0. pose proof (digits_nonempty n) as Hn0.
  set (m0 := digits n) in *.
  set (m := if (String.length m0 <=? 2)%nat
            then zeros (2 + 1 - String.length m0) ++ m0 else m0).
  assert (all_digits m = true) as Hm.
  { unfold m. destruct (_ <=? _)%nat; [|exact Hd0].
    by rewrite all_digits_app, all_digits_zeros, Hd0. }
  assert (3 <= String.length m)%nat as Hlen.
  { unfold m. destruct (Nat.leb_spec (String.length m0) 2) as [H|H]; [|lia].
    rewrite length_append, length_zeros. lia. }
  rewrite decimals_after by (by apply all_digits_substring).
  pose proof (length_substring m (String.length m - 2) 2 ltac:(lia)) as Hl.
  pose proof (all_digits_substring m (String.length m - 2) 2 Hm) as Hd.
  destruct (substring (String.length m - 2) 2 m) as [|d1 [|d2 [|]]]; try discriminate Hl.
  simpl in Hd. rewrite andb_true_r in Hd. apply andb_true_iff in Hd as [H1 H2].
  by exists d1, d2.
Qed.

Lemma Qabs_signed (s : bool) (m : positive) (e : Z) :
  (Qabs (inject_Z (if s then Z.neg m else Z.pos m) * Qpower 2 e)
   == inject_Z (Z.pos m) * Qpower 2 e)%Q.
Proof.
  rewrite Qabs_Qmult.
  assert (0 <= Qpower 2 e)%Q as Hp by (apply Qpower_0_le; discriminate).
  rewrite (Qabs_pos _ Hp). destruct s; reflexivity.
Qed.

(** A finite number of magnitude below 10^21 is rendered by [toFixed(2)]
    with exactly two decimal places. *)
Lemma toFixed_two_decimals (x : float) (q : Q) :
  exact x = Some q -> (Qabs q < pow10 21)%Q -> two_decimal_places (toFixed x 2).
Proof.
  unfold exact, toFixed. destruct (Prim2SF x) as [s|s| |s m e]; try discriminate.
  - intros _ _. apply fixed_digits_two.
  - intros [= <-] Hq. rewrite Qabs_signed in Hq.
    destruct (Qle_bool (pow10 21) _) eqn:Hle.
    + apply Qle_bool_iff in Hle. exfalso. exact (Qlt_not_le _ _ Hq Hle).
    + destruct s; apply fixed_digits_two.
Qed.

(** ** The parameter normalizer *)

Section Normalizer.

Import DialogFlowService.

Lemma extractField_storeField extracted key field :
  nullish field = false ->
  extractField extracted (key, field) = Return (storeField extracted (key, field)).
Proof.
  intros Hf. unfold extractField, storeField, normalizedField. simpl.
  rewrite (prop_Return field "stringValue" Hf). simpl.
  destruct (is_undefined (read field "stringValue")); simpl; [|reflexivity].
  rewrite (prop_Return field "numberValue" Hf). simpl.
  destruct (is_undefined (read field "numberValue")); simpl; [|reflexivity].
  rewrite (prop_Return field "structValue" Hf). simpl.
  destruct (truthy (read field "structValue")) eqn:Hs; simpl; [|reflexivity].
  rewrite (prop_Return _ "fields" (truthy_not_nullish _ Hs)). simpl.
  rewrite optprop_spec. simpl.
  destruct (nullish (read (read field "structValue") "fields")) eqn:Hn.
  - simpl. reflexivity.
  - destruct (truthy (read (read (read field "structValue") "fields") "amount")) eqn:Ha;
      [|reflexivity].
    rewrite (prop_Return _ "numberValue" (truthy_not_nullish _ Ha)). simpl.
    rewrite (prop_Return _ "currency" Hn). simpl.
    rewrite optprop_spec. simpl. reflexivity.
Qed.

(** The second copy stores exactly the same. *)
Lemma MCP_extractField_storeField extracted key field :
  nullish field = false ->
  MCPDialogFlowService.extractField extracted (key, field)
  = Return (storeField extracted (key, field)).
Proof.
  intros Hf. unfold MCPDialogFlowService.extractField, storeField, normalizedField. simpl.
  rewrite (prop_Return field "stringValue" Hf). simpl.
  destruct (is_undefined (read field "stringValue")); simpl; [|reflexivity].
  rewrite (prop_Return field "numberValue" Hf). simpl.
  destruct (is_undefined (read field "numberValue")); simpl; [|reflexivity].
  rewrite (prop_Return field "structValue" Hf). simpl.
  destruct (truthy (read field "structValue")) eqn:Hs; simpl; [|by rewrite Hs].
  rewrite (prop_Return _ "fields" (truthy_not_nullish _ Hs)). simpl.
  destruct (truthy (read (read field "structValue") "fields")) eqn:Ht.
  - pose proof (truthy_not_nullish _ Ht) as Hn. rewrite Hn.
    rewrite (prop_Return _ "amount" Hn). simpl.
    destruct (truthy (read (read (read field "structValue") "fields") "amount")) eqn:Ha;
      [|reflexivity].
    rewrite (prop_Return _ "numberValue" (truthy_not_nullish _ Ha)). simpl.
    rewrite (prop_Return _ "currency" Hn). simpl.
    rewrite optprop_spec. reflexivity.
  - destruct (nullish (read (read field "structValue") "fields")) eqn:Hn; [reflexivity|].
    rewrite (falsy_read _ "amount" Ht Hn). reflexivity.
Qed.

Lemma forEach_storeField f l :
  (forall acc k v, nullish v = false -> f acc (k, v) = Return (storeField acc (k, v))) ->
  Forall (fun e => nullish e.2 = false) l ->
  forall acc, forEach l f acc = Return (foldl storeField acc l).
Proof.
  intros Hf Hl. induction Hl as [|[k v] l Hv _ IH]; intros acc; simpl; [reflexivity|].
  rewrite (Hf acc k v Hv). simpl. apply IH.
Qed.

Lemma storeField_own_other acc k f key :
  k <> key -> own_property (storeField acc (k, f)) key = own_property acc key.
Proof.
  intros Hk. unfold storeField. simpl. destruct (normalizedField f); [|reflexivity].
  by apply Put_own_other.
Qed.

Lemma storeField_object acc e : is_object acc = true -> is_object (storeField acc e) = true.
Proof.
  intros H. unfold storeField. destruct (normalizedField e.2); [by apply Put_object|done].
Qed.

Lemma stored_own_absent key l : forall acc,
  key ∉ l.*1 -> own_property (foldl storeField acc l) key = own_property acc key.
Proof.
  induction l as [|[k f] l IH]; intros acc Hk; simpl; [reflexivity|].
  rewrite fmap_cons in Hk. simpl in Hk. apply not_elem_of_cons in Hk as [Hne Hk].
  rewrite (IH _ Hk). apply storeField_own_other. congruence.
Qed.

(** A field that normalizes to [v] under a key other than [__proto__]
    ends up as the own property [key] of the result. *)
Lemma stored_own_kept key f v l : forall acc,
  NoDup l.*1 -> (key, f) ∈ l -> is_object acc = true ->
  key <> "__proto__" -> normalizedField f = Some v ->
  own_property (foldl storeField acc l) key = Some v.
Proof.
  induction l as [|[k f'] l IH]; intros acc Hnd Hin Hobj Hk Hn;
    [by apply elem_of_nil in Hin|].
  rewrite fmap_cons in Hnd. apply NoDup_cons in Hnd as [Hfresh Hnd]. simpl in *.
  apply elem_of_cons in Hin as [Heq|Hin].
  - injection Heq as <- <-. rewrite (stored_own_absent _ _ _ Hfresh).
    unfold storeField. simpl. rewrite Hn. destruct acc; try done. by apply Put_own_same.
  - apply IH; auto. by apply storeField_object.
Qed.


Lemma stored_proto_kept l : forall p own created,
  "__proto__" ∉ l.*1 ->
  exists own' created',
    foldl storeField (Object p own created) l = Object p own' created'
    /\ own' !! "__proto__" = own !! "__proto__".
Proof.
  induction l as [|[k f] l IH]; intros p own created Hk; simpl; [by exists own, created|].
  rewrite fmap_cons in Hk. simpl in Hk. apply not_elem_of_cons in Hk as [Hne Hk].
  unfold storeField at 2. simpl. destruct (normalizedField f) as [v|].
  - unfold Put. destruct (String.eqb_spec k "__proto__") as [->|_]; [done|]. simpl.
    destruct (IH p (<[k:=v]> own)
                 (match own !! k with Some _ => created | None => (created ++ [k])%list end)
                 Hk) as (own' & created' & -> & Hown).
    exists own', created'. split; [done|]. rewrite Hown. by apply lookup_insert_ne.
  - by apply IH.
Qed.

(** Under the key [__proto__] the assignment [extracted[key] = v] installs
    the object [v] as prototype, and reading [extracted[key]] returns it. *)
Lemma stored_proto_set f v l : forall own created,
  NoDup l.*1 -> ("__proto__", f) ∈ l -> normalizedField f = Some v -> plain_object v ->
  own !! "__proto__" = None ->
  Get (foldl storeField (Object ObjectPrototype own created) l) "__proto__" = Data v.
Proof.
  intros own created Hnd Hin Hn (vown & vcreated & -> & Hv). revert own created Hnd Hin.
  induction l as [|[k f'] l IH]; intros own created Hnd Hin Hown;
    [by apply elem_of_nil in Hin|].
  rewrite fmap_cons in Hnd. apply NoDup_cons in Hnd as [Hfresh Hnd]. simpl in *.
  apply elem_of_cons in Hin as [Heq|Hin].
  - injection Heq as <- <-. unfold storeField at 2. simpl. rewrite Hn.
    unfold Put. simpl. rewrite Hown. simpl.
    destruct (stored_proto_kept l (Object ObjectPrototype vown vcreated) own created Hfresh)
      as (own' & created' & -> & Hown').
    unfold Get. simpl. rewrite Hown', Hown, Hv. reflexivity.
  - assert (k <> "__proto__") as Hk.
    { intros ->. apply Hfresh. by apply (list_elem_of_fmap_2 fst) in Hin. }
    unfold storeField at 2. simpl. destruct (normalizedField f') as [v'|]; [|by apply IH].
    unfold Put. destruct (String.eqb_spec k "__proto__") as [->|_]; [done|]. simpl.
    apply IH; auto. by rewrite lookup_insert_ne.
Qed.

(** Both copies of [extractParameters] on a well-formed struct: no
    exception, and the result is the fold of [storeField] over the
    fields. *)
Lemma extractParameters_stored parameters fp (fields : gmap string value) created :
  truthy parameters = true ->
  read parameters "fields" = Object fp fields created ->
  fields_present fields ->
  extractParameters parameters
    = Return (foldl storeField (literal []) (entries (Object fp fields created)))
  /\ MCPDialogFlowService.extractParameters parameters
    = Return (foldl storeField (literal []) (entries (Object fp fields created))).
Proof.
  intros Ht Hfields Hpresent.
  assert (Forall (fun e : string * value => nullish e.2 = false)
                 (entries (Object fp fields created))) as Hall.
  { apply Forall_forall. intros [k f] Hin. apply elem_of_entries in Hin.
    exact (Hpresent k f Hin). }
  unfold extractParameters, MCPDialogFlowService.extractParameters.
  rewrite Ht. simpl. rewrite (prop_Return _ "fields" (truthy_not_nullish _ Ht)). simpl.
  rewrite Hfields. simpl. split.
  - apply forEach_storeField; [apply extractField_storeField|exact Hall].
  - apply forEach_storeField; [apply MCP_extractField_storeField|exact Hall].
Qed.

Lemma money_payload_normalized field amount currency :
  money_payload field amount currency ->
  normalizedField field
  = Some (money (read amount "numberValue") (currency_code currency)).
Proof.
  intros (Hs & Hn & Hsv & Hf & Ha & Hta & Hc). unfold normalizedField.
  rewrite Hs, Hn. simpl. rewrite Hsv, Hf, Ha, Hta, Hc. reflexivity.
Qed.


Lemma money_plain_object amount currency : plain_object (money amount currency).
Proof.
  eexists _, _. split; [reflexivity|]. simpl.
  rewrite lookup_insert_ne by done. rewrite lookup_insert_ne by done. done.
Qed.

(** The core of the money rule: on a well-formed struct, a field with a
    money payload reads back, under its key, as the money value. *)
Lemma extractParameters_money parameters fp (fields : gmap string value) created
      key field amount currency :
  truthy parameters = true ->
  read parameters "fields" = Object fp fields created ->
  fields_present fields ->
  fields !! key = Some field ->
  money_payload field amount currency ->
  exists extracted,
    extractParameters parameters = Return extracted
    /\ MCPDialogFlowService.extractParameters parameters = Return extracted
    /\ Get extracted key
       = Data (money (read amount "numberValue") (currency_code currency)).
Proof.
  intros Ht Hfields Hpresent Hkey Hmoney.
  destruct (extractParameters_stored _ _ _ _ Ht Hfields Hpresent) as [H1 H2].
  eexists. split; [exact H1|]. split; [exact H2|].
  pose proof (money_payload_normalized _ _ _ Hmoney) as Hn.
  pose proof (NoDup_fst_entries fp fields created) as Hnd.
  assert ((key, field) ∈ entries (Object fp fields created)) as Hin
    by by apply elem_of_entries.
  destruct (decide (key = "__proto__")) as [->|Hk].
  - apply (stored_proto_set field); auto using money_plain_object.
  - pose proof (stored_own_kept key field _ _ (literal []) Hnd Hin eq_refl Hk Hn) as Hown.
    destruct (foldl storeField (literal []) (entries (Object fp fields created))) eqn:E; try done.
    by apply Get_own.
Qed.

End Normalizer.

(** ** Claims about the parameter normalizer *)

Section NormalizerClaims.

Import DialogFlowService.

(** C4: on a well-formed raw parameter struct, a field whose payload is a
    nested composite with an [amount] sub-field is mapped by both copies of
    the normalizer to the money value [{ amount, currency }], where
    [amount] is the sub-field's number and [currency] is the [currency]
    sub-field's string or ["USD"]; when the [currency] sub-field is absent
    the currency is ["USD"]. *)
Theorem normalize_money_field parameters fp (fields : gmap string value) created
        key field amount currency :
  truthy parameters = true ->
  read parameters "fields" = Object fp fields created ->
  fields_present fields ->
  fields !! key = Some field ->
  money_payload field amount currency ->
  exists extracted,
    extractParameters parameters = Return extracted
    /\ MCPDialogFlowService.extractParameters parameters = Return extracted
    /\ Get extracted key
       = Data (money (read amount "numberValue") (currency_code currency))
    /\ (currency = Undefined ->
        Get extracted key = Data (money (read amount "numberValue") (Str "USD"))).
Proof.
  intros Ht Hfields Hpresent Hkey Hmoney.
  destruct (extractParameters_money _ _ _ _ _ _ _ _ Ht Hfields Hpresent Hkey Hmoney)
    as (extracted & H1 & H2 & H3).
  exists extracted. repeat split; try assumption.
  intros ->. exact H3.
Qed.

Lemma struct_with_amount_present x :
  fields_present (list_to_map [ ("amount-of-money", amount_only x) ]).
Proof.
  intros k f H. apply elem_of_list_to_map_2 in H.
  apply elem_of_cons in H as [[= -> ->]|H]; [reflexivity|by apply elem_of_nil in H].
Qed.

(** The scenario of the specification: a structured amount of 150.00 with
    no currency field normalizes to [{ amount: 150, currency: "USD" }]. *)
Lemma normalize_money_field_witness :
  exists extracted,
    extractParameters (struct_with_amount 150) = Return extracted
    /\ MCPDialogFlowService.extractParameters (struct_with_amount 150) = Return extracted
    /\ Get extracted "amount-of-money" = Data (money (Number 150) (Str "USD")).
Proof.
  destruct (normalize_money_field (struct_with_amount 150) ObjectPrototype
              (list_to_map [ ("amount-of-money", amount_only 150) ]) [ "amount-of-money" ]
              "amount-of-money" (amount_only 150)
              (literal [ ("numberValue", Number 150) ]) Undefined)
    as (extracted & H1 & H2 & _ & H4).
  - reflexivity.
  - vm_compute. reflexivity.
  - apply struct_with_amount_present.
  - vm_compute. reflexivity.
  - unfold money_payload. vm_compute. repeat split; reflexivity.
  - exists extracted. split; [exact H1|]. split; [exact H2|]. apply H4. reflexivity.
Defined.

Lemma read_money_amount amount currency : read (money amount currency) "amount" = amount.
Proof. reflexivity. Qed.

(** C5 (as amended): the amount of a money value is the provider's
    [numberValue], a binary64 floating-point number, and normalization
    copies it unchanged: the stored amount is the very number the provider
    supplied.  No decimal representation is involved. *)
Theorem money_amount_copied parameters fp (fields : gmap string value) created
        key field amount currency (x : float) :
  truthy parameters = true ->
  read parameters "fields" = Object fp fields created ->
  fields_present fields ->
  fields !! key = Some field ->
  money_payload field amount currency ->
  read amount "numberValue" = Number x ->
  exists extracted stored,
    extractParameters parameters = Return extracted
    /\ MCPDialogFlowService.extractParameters parameters = Return extracted
    /\ Get extracted key = Data stored
    /\ read stored "amount" = Number x.
Proof.
  intros Ht Hfields Hpresent Hkey Hmoney Hx.
  destruct (extractParameters_money _ _ _ _ _ _ _ _ Ht Hfields Hpresent Hkey Hmoney)
    as (extracted & H1 & H2 & H3).
  exists extracted, (money (read amount "numberValue") (currency_code currency)).
  split; [exact H1|]. split; [exact H2|]. split; [exact H3|].
  by rewrite read_money_amount.
Qed.

Lemma money_amount_copied_witness :
  exists extracted stored,
    extractParameters (struct_with_amount 0.1) = Return extracted
    /\ MCPDialogFlowService.extractParameters (struct_with_amount 0.1) = Return extracted
    /\ Get extracted "amount-of-money" = Data stored
    /\ read stored "amount" = Number 0.1.
Proof.
  apply (money_amount_copied (struct_with_amount 0.1) ObjectPrototype
           (list_to_map [ ("amount-of-money", amount_only 0.1) ]) [ "amount-of-money" ]
           "amount-of-money" (amount_only 0.1)
           (literal [ ("numberValue", Number 0.1) ]) Undefined 0.1).
  - reflexivity.
  - vm_compute. reflexivity.
  - apply struct_with_amount_present.
  - vm_compute. reflexivity.
  - unfold money_payload. vm_compute. repeat split; reflexivity.
  - vm_compute. reflexivity.
Defined.

(** C5 (as stated) fails: the amount written 0.10 is stored as the
    binary64 number nearest to it, whose exact value is not 0.10; no
    stored amount at all has the exact value 0.10. *)
Lemma money_amount_not_exact_decimal :
  exists extracted stored q,
    extractParameters (struct_with_amount 0.1) = Return extracted
    /\ Get extracted "amount-of-money" = Data stored
    /\ read stored "amount" = Number 0.1
    /\ exact 0.1 = Some q
    /\ ~ (q == 1 # 10)%Q
    /\ (forall (y : float) r, exact y = Some r -> ~ (r == 1 # 10)%Q).
Proof.
  eexists _, _, _. split; [vm_compute; reflexivity|].
  split; [vm_compute; reflexivity|].
  split; [vm_compute; reflexivity|].
  split; [vm_compute; reflexivity|].
  split; [|exact tenth_not_binary64].
  intros H. vm_compute in H. discriminate H.
Qed.





End NormalizerClaims.

(** ** Claims about the intent router *)

Section Router.

Import DialogFlowService Readme.

Lemma Prim2SF_MEDIUM :
  Prim2SF MEDIUM_CONFIDENCE = S754_finite false 5404319552844595 (-53).
Proof. vm_compute. reflexivity. Qed.

Lemma Prim2SF_HIGH :
  Prim2SF HIGH_CONFIDENCE = S754_finite false 7205759403792794 (-53).
Proof. vm_compute. reflexivity. Qed.

(** Comparison of two positive finite numbers: below [M * 2^E] excludes
    being at or above [M' * 2^E] for every [M' >= M]. *)
Lemma finite_below (m M : positive) (e E : Z) :
  SFltb (S754_finite false m e) (S754_finite false M E) = true ->
  forall M', (M <= M')%positive ->
  SFleb (S754_finite false M' E) (S754_finite false m e) = false.
Proof.
  unfold SFltb, SFleb, SFcompare.
  rewrite (Z.compare_antisym e E).
  destruct (e ?= E)%Z; cbn [CompOpp]; try discriminate; auto.
  pose proof (Pos.compare_spec m M) as H1. unfold Pos.compare in H1.
  intros H M' HM.
  pose proof (Pos.compare_spec M' m) as H2. unfold Pos.compare in H2.
  destruct H1; try discriminate. destruct H2; [lia|lia|reflexivity].
Qed.

(** A confidence strictly below the medium threshold is at or above
    neither threshold. *)
Lemma below_medium (c : float) :
  (c <? MEDIUM_CONFIDENCE)%float = true ->
  (MEDIUM_CONFIDENCE <=? c)%float = false /\ (HIGH_CONFIDENCE <=? c)%float = false.
Proof.
  rewrite ltb_spec, !leb_spec, Prim2SF_MEDIUM, Prim2SF_HIGH.
  destruct (Prim2SF c) as [s|s| |s m e].
  - intros _. split; reflexivity.
  - destruct s; intros H; [split; reflexivity|discriminate H].
  - intros H; discriminate H.
  - destruct s; [intros _; split; reflexivity|].
    intros H. split; apply (finite_below _ _ _ _ H); lia.
Qed.

(** C3: classification is inclusive of the upper tier at both thresholds.
    At confidence exactly 0.8 the high-confidence branch is taken (the
    action is executed when the intent is safe; neither confirmation nor
    clarification is requested); at exactly 0.6 confirmation is requested;
    strictly below 0.6 clarification is requested. *)
Theorem confidence_tiers (result : IntentResult) :
  (confidence result = 0.8%float ->
   handleIntent result
   = if (String.prefix "account." (intent result)
         || String.eqb (intent result) "general.help")%bool
     then [executeAction result] else [])
  /\ (confidence result = 0.6%float ->
      handleIntent result = [askForConfirmation result])
  /\ ((confidence result <? 0.6)%float = true ->
      handleIntent result = [requestClarification result]).
Proof.
  unfold handleIntent. split; [|split].
  - intros ->. reflexivity.
  - intros ->. reflexivity.
  - intros H. apply below_medium in H as [Hm Hh]. by rewrite Hh, Hm.
Qed.

Lemma confidence_tiers_witness :
  handleIntent (recognized "account.balance" 0.8)
  = [executeAction (recognized "account.balance" 0.8)]
  /\ handleIntent (recognized "payment.transfer" 0.6)
     = [askForConfirmation (recognized "payment.transfer" 0.6)]
  /\ handleIntent (recognized "account.balance" 0.59)
     = [requestClarification (recognized "account.balance" 0.59)].
Proof.
  split; [|split].
  - exact (proj1 (confidence_tiers (recognized "account.balance" 0.8)) eq_refl).
  - exact (proj1 (proj2 (confidence_tiers (recognized "payment.transfer" 0.6))) eq_refl).
  - exact (proj2 (proj2 (confidence_tiers (recognized "account.balance" 0.59))) eq_refl).
Defined.

(** X1 (the part of C1 that holds): for a state-changing intent
    [handleIntent] never calls [executeAction], whatever the confidence:
    it calls nothing, [askForConfirmation] or [requestClarification]. *)
Lemma state_changing_never_executed (result : IntentResult) :
  intent result ∈ state_changing_intents ->
  handleIntent result = []
  \/ handleIntent result = [askForConfirmation result]
  \/ handleIntent result = [requestClarification result].
Proof.
  intros Hin. unfold handleIntent.
  destruct (HIGH_CONFIDENCE <=? confidence result)%float.
  - left. unfold state_changing_intents in Hin.
    repeat (apply elem_of_cons in Hin as [->|Hin]; [reflexivity|]).
    by apply elem_of_nil in Hin.
  - destruct (MEDIUM_CONFIDENCE <=? confidence result)%float; auto.
Qed.

Lemma state_changing_never_executed_witness :
  handleIntent (recognized "card.block" 0.7) = []
  \/ handleIntent (recognized "card.block" 0.7)
     = [askForConfirmation (recognized "card.block" 0.7)]
  \/ handleIntent (recognized "card.block" 0.7)
     = [requestClarification (recognized "card.block" 0.7)].
Proof.
  apply (state_changing_never_executed (recognized "card.block" 0.7)).
  unfold state_changing_intents. simpl. in_literals.
Defined.

(** At high confidence no handler at all is invoked for them. *)
Lemma state_changing_high_confidence (result : IntentResult) :
  intent result ∈ state_changing_intents ->
  (HIGH_CONFIDENCE <=? confidence result)%float = true ->
  handleIntent result = [].
Proof.
  intros Hin Hc. unfold handleIntent. rewrite Hc.
  unfold state_changing_intents in Hin.
  repeat (apply elem_of_cons in Hin as [->|Hin]; [reflexivity|]).
  by apply elem_of_nil in Hin.
Qed.

(** C1 (the code at the failing input): with confidence 0.99 on
    [payment.transfer], [handleIntent] calls no handler: the transfer is
    neither executed nor put to the user for confirmation. *)
Theorem transfer_high_confidence_unhandled :
  handleIntent (recognized "payment.transfer" 0.99) = []
  /\ requiresAuth (recognized "payment.transfer" 0.99) = Bool true
  /\ permission (recognized "payment.transfer" 0.99) = Str "write:transfer".
Proof.
  split; [reflexivity|]. split; vm_compute; reflexivity.
Qed.

Lemma not_inherited intent :
  intent ∉ inherited_names ->
  String.eqb intent "__proto__" = false
  /\ existsb (String.eqb intent) ObjectPrototype_methods = false.
Proof.
  intros Hin. unfold inherited_names in Hin. apply not_elem_of_cons in Hin as [Hp Hm].
  split; [by apply String.eqb_neq|].
  destruct (existsb _ _) eqn:E; [|reflexivity].
  apply existsb_exists in E as (x & Hx & Heq). apply String.eqb_eq in Heq as <-.
  exfalso. apply Hm. by apply list_elem_of_In.
Qed.

(** X2 (the part of C2 that holds): an intent name that is neither a key
    of the table nor a name inherited from [Object.prototype] resolves to
    the default descriptor [{ requiresAuth: true, apiEndpoint: null,
    permission: null }]. *)
Lemma Get_literal_absent props k :
  k ∉ props.*1 -> k ∉ inherited_names -> Get (literal props) k = Data Undefined.
Proof.
  intros Hk Hi. destruct (not_inherited _ Hi) as [Hp Hm].
  unfold Get, literal. cbn [Get_from].
  rewrite (not_elem_of_list_to_map_1 _ _ Hk). cbn [Get_from].
  by rewrite Hp, Hm.
Qed.

Lemma mapToBankingOperation_default intent parameters :
  intent ∉ known_intents -> intent ∉ inherited_names ->
  mapToBankingOperation intent parameters = Data default_descriptor.
Proof.
  intros Hk Hi. unfold mapToBankingOperation, intentMapping.
  rewrite Get_literal_absent; [reflexivity|exact Hk|exact Hi].
Qed.

Lemma mapToBankingOperation_default_witness :
  mapToBankingOperation "foo.bar" (literal []) = Data default_descriptor.
Proof.
  apply (mapToBankingOperation_default "foo.bar" (literal [])).
  - unfold known_intents. not_in_literals.
  - unfold inherited_names, ObjectPrototype_methods. not_in_literals.
Defined.

Lemma mapToBankingOperation_truthy intent parameters :
  truthy_any (mapToBankingOperation intent parameters) = true.
Proof.
  unfold mapToBankingOperation.
  destruct (truthy_any (Get intentMapping intent)) eqn:E; [exact E|reflexivity].
Qed.

(** C2 (the code at the failing input): the intent name ["constructor"]
    is not a key of the table, yet the lookup does not return the default
    descriptor: it returns the function the table inherits under that
    name, whose [requiresAuth] is [undefined]. *)
Theorem mapToBankingOperation_constructor (parameters : value) :
  ("constructor" ∉ known_intents)
  /\ mapToBankingOperation "constructor" parameters = BuiltinFunction "constructor"
  /\ mapToBankingOperation "constructor" parameters <> Data default_descriptor
  /\ member (mapToBankingOperation "constructor" parameters) "requiresAuth"
     = Return Undefined.
Proof.
  assert (mapToBankingOperation "constructor" parameters = BuiltinFunction "constructor")
    as H by (vm_compute; reflexivity).
  split.
  - unfold known_intents. not_in_literals.
  - split; [exact H|]. rewrite H. split; [discriminate|reflexivity].
Qed.

End Router.

(** ** Claims about the NLU client adapter *)

Section NormalizerFailure.

Import DialogFlowService.

Lemma forEach_nullish_throws l : forall acc,
  Exists (fun e : string * value => nullish e.2 = true) l ->
  exists msg, forEach l extractField acc = Throw (TypeError msg).
Proof.
  induction l as [|[k f] l IH]; intros acc Hex; [by apply Exists_nil in Hex|].
  cbn [forEach]. destruct (nullish f) eqn:Hn.
  - destruct f; try discriminate Hn; simpl; eauto.
  - rewrite (extractField_storeField _ _ _ Hn). cbn [mbind result_bind]. apply IH.
    apply Exists_cons in Hex as [H|H]; [simpl in H; congruence|exact H].
Qed.

Lemma extractParameters_nullish_field parameters fp (fields : gmap string value) created
      key field :
  truthy parameters = true ->
  read parameters "fields" = Object fp fields created ->
  fields !! key = Some field ->
  nullish field = true ->
  exists msg, extractParameters parameters = Throw (TypeError msg).
Proof.
  intros Ht Hf Hk Hn. unfold extractParameters. rewrite Ht. simpl.
  rewrite (prop_Return _ "fields" (truthy_not_nullish _ Ht)). simpl. rewrite Hf. simpl.
  apply forEach_nullish_throws. apply Exists_exists. exists (key, field).
  split; [by apply elem_of_entries|exact Hn].
Qed.

End NormalizerFailure.

Section Adapter.

Import DialogFlowService.

Lemma detectIntent_rejected this message reason :
  Provider.detectIntent (sessionClient this) (request this message)
  = Provider.Rejected reason ->
  detectIntent this message
  = Throw (Error ("Failed to detect intent: " ++ message_of reason)).
Proof. intros H. unfold detectIntent. rewrite H. reflexivity. Qed.

Lemma detectIntent_no_queryResult this message response :
  Provider.detectIntent (sessionClient this) (request this message)
  = Provider.Resolved response ->
  absent (Provider.queryResult response) ->
  detectIntent this message
  = Throw (Error "Failed to detect intent: No query result received from DialogFlow").
Proof.
  intros H Habs. unfold detectIntent. rewrite H. run.
  destruct Habs as [-> | ->]; reflexivity.
Qed.

Lemma mapToBankingOperation_unknown parameters :
  mapToBankingOperation "unknown" parameters = Data default_descriptor.
Proof. vm_compute. reflexivity. Qed.

Lemma member_descriptor intent parameters k :
  member (mapToBankingOperation intent parameters) k = Return (descriptor_member intent k).
Proof.
  unfold descriptor_member.
  change (mapToBankingOperation intent Undefined) with (mapToBankingOperation intent parameters).
  pose proof (mapToBankingOperation_truthy intent parameters) as Ht.
  destruct (mapToBankingOperation intent parameters) as [d|f]; simpl in *; [|reflexivity].
  by apply prop_Return, truthy_not_nullish.
Qed.

(** When the parameters normalize, [detectIntent] returns, whatever the
    intent: the table lookup and the three member reads never throw. *)
Lemma detectIntent_normalized this message response queryResult parameters :
  Provider.detectIntent (sessionClient this) (request this message)
  = Provider.Resolved response ->
  Provider.queryResult response = Provider.present queryResult ->
  extractParameters (Provider.parameters queryResult) = Return parameters ->
  detectIntent this message
  = Return {| intent := Provider.string_or (intent_displayName queryResult) "unknown";
              confidence :=
                Provider.number_or (Provider.intentDetectionConfidence queryResult) 0;
              parameters := parameters;
              fulfillmentText :=
                Provider.string_or (Provider.fulfillmentText queryResult) "";
              requiresAuth :=
                descriptor_member
                  (Provider.string_or (intent_displayName queryResult) "unknown")
                  "requiresAuth";
              apiEndpoint :=
                descriptor_member
                  (Provider.string_or (intent_displayName queryResult) "unknown")
                  "apiEndpoint";
              permission :=
                descriptor_member
                  (Provider.string_or (intent_displayName queryResult) "unknown")
                  "permission" |}.
Proof.
  intros H Hqr Hps. unfold detectIntent. rewrite H. run. rewrite Hqr, Hps. run.
  rewrite !member_descriptor. reflexivity.
Qed.

(** When the normalizer throws, [detectIntent] throws the wrapped error,
    whatever else the query result holds. *)
Lemma detectIntent_normalizer_throws this message response queryResult e :
  Provider.detectIntent (sessionClient this) (request this message)
  = Provider.Resolved response ->
  Provider.queryResult response = Provider.present queryResult ->
  extractParameters (Provider.parameters queryResult) = Throw e ->
  detectIntent this message
  = Throw (Error ("Failed to detect intent: " ++ message_of e)).
Proof.
  intros H Hqr Hps. unfold detectIntent. rewrite H. run. rewrite Hqr, Hps. reflexivity.
Qed.

(** A query result without a display name is answered, not refused. *)
Lemma detectIntent_unknown this message response queryResult parameters :
  Provider.detectIntent (sessionClient this) (request this message)
  = Provider.Resolved response ->
  Provider.queryResult response = Provider.present queryResult ->
  absent (intent_displayName queryResult) ->
  extractParameters (Provider.parameters queryResult) = Return parameters ->
  detectIntent this message
  = Return {| intent := "unknown";
              confidence :=
                Provider.number_or (Provider.intentDetectionConfidence queryResult) 0;
              parameters := parameters;
              fulfillmentText :=
                Provider.string_or (Provider.fulfillmentText queryResult) "";
              requiresAuth := Bool true;
              apiEndpoint := Null;
              permission := Null |}.
Proof.
  intros H Hqr Habs Hps. unfold detectIntent. rewrite H. run. rewrite Hqr, Hps. run.
  assert (Provider.string_or (intent_displayName queryResult) "unknown" = "unknown") as ->
    by (destruct Habs as [-> | ->]; reflexivity).
  rewrite mapToBankingOperation_unknown. reflexivity.
Qed.

(** Whatever makes [detectIntent] fail, the caller sees one kind of
    error: a plain [Error] whose message starts with the fixed prefix. *)
Lemma detectIntent_throws_Error this message e :
  detectIntent this message = Throw e ->
  exists cause, e = Error ("Failed to detect intent: " ++ cause).
Proof.
  unfold detectIntent, try_catch.
  destruct (_ ≫= _) as [r|cause]; intros H; [discriminate H|].
  injection H as <-. by eexists.
Qed.

(** The normalizer returns on absent parameters. *)
Lemma extractParameters_absent parameters :
  truthy parameters = false -> extractParameters parameters = Return (literal []).
Proof. intros Ht. unfold extractParameters. by rewrite Ht. Qed.

(** C10 (as stated) fails: a response with a query result, no intent and
    no detection confidence, one of whose parameter fields is [null],
    does not make [detectIntent] succeed.  The TypeError of the
    normalizer is caught and thrown again as the generic error. *)
Lemma missing_intent_null_field_fails :
  Provider.queryResult response_without_intent_null_field
  = Provider.present
      (query_without_intent (literal [ ("fields", literal [ ("broken", Null) ]) ]))
  /\ absent (intent_displayName
               (query_without_intent (literal [ ("fields", literal [ ("broken", Null) ]) ])))
  /\ absent (Provider.intentDetectionConfidence
               (query_without_intent (literal [ ("fields", literal [ ("broken", Null) ]) ])))
  /\ detectIntent (new (client_resolving response_without_intent_null_field) example_config)
       "hello"
     = Throw (Error
                "Failed to detect intent: Cannot read properties of null (reading 'stringValue')").
Proof.
  split; [reflexivity|]. split; [left; reflexivity|]. split; [left; reflexivity|].
  vm_compute. reflexivity.
Qed.

(** C10 (as amended): for a response with a query result but no intent
    object (or no display name) and no detection confidence,
    [detectIntent] succeeds exactly when the normalization of the
    response's parameters returns.  It then returns intent ["unknown"]
    and confidence 0 with the fail-closed default descriptor of the table
    ([requiresAuth] [true], no endpoint, no permission).  Normalization
    returns when there are no parameters and when no field of the
    parameter struct is [null] or [undefined]; when one is, it throws,
    and [detectIntent] fails with the wrapped error although the
    fallbacks for intent and confidence apply. *)
Theorem detectIntent_missing_intent this message response queryResult :
  Provider.detectIntent (sessionClient this) (request this message)
  = Provider.Resolved response ->
  Provider.queryResult response = Provider.present queryResult ->
  absent (intent_displayName queryResult) ->
  absent (Provider.intentDetectionConfidence queryResult) ->
  (forall parameters,
     mapToBankingOperation "unknown" parameters = Data default_descriptor)
  /\ (forall parameters,
        extractParameters (Provider.parameters queryResult) = Return parameters ->
        detectIntent this message
        = Return {| intent := "unknown";
                    confidence := 0;
                    parameters := parameters;
                    fulfillmentText :=
                      Provider.string_or (Provider.fulfillmentText queryResult) "";
                    requiresAuth := Bool true;
                    apiEndpoint := Null;
                    permission := Null |})
  /\ (forall e,
        extractParameters (Provider.parameters queryResult) = Throw e ->
        detectIntent this message
        = Throw (Error ("Failed to detect intent: " ++ message_of e)))
  /\ (truthy (Provider.parameters queryResult) = false ->
      exists result,
        detectIntent this message = Return result
        /\ intent result = "unknown"
        /\ confidence result = 0%float
        /\ requiresAuth result = Bool true)
  /\ (forall fp (fields : gmap string value) created,
        truthy (Provider.parameters queryResult) = true ->
        read (Provider.parameters queryResult) "fields" = Object fp fields created ->
        fields_present fields ->
        exists result,
          detectIntent this message = Return result
          /\ intent result = "unknown"
          /\ confidence result = 0%float
          /\ requiresAuth result = Bool true)
  /\ (forall fp (fields : gmap string value) created key field,
        truthy (Provider.parameters queryResult) = true ->
        read (Provider.parameters queryResult) "fields" = Object fp fields created ->
        fields !! key = Some field ->
        nullish field = true ->
        exists cause,
          detectIntent this message
          = Throw (Error ("Failed to detect intent: " ++ cause))).
Proof.
  intros H Hqr Hname Hconf.
  assert (Provider.number_or (Provider.intentDetectionConfidence queryResult) 0 = 0%float)
    as Hzero by (destruct Hconf as [-> | ->]; reflexivity).
  assert (forall parameters,
            extractParameters (Provider.parameters queryResult) = Return parameters ->
            detectIntent this message
            = Return {| intent := "unknown";
                        confidence := 0;
                        parameters := parameters;
                        fulfillmentText :=
                          Provider.string_or (Provider.fulfillmentText queryResult) "";
                        requiresAuth := Bool true;
                        apiEndpoint := Null;
                        permission := Null |}) as Hreturns.
  { intros parameters Hps.
    rewrite (detectIntent_unknown _ _ _ _ _ H Hqr Hname Hps), Hzero. reflexivity. }
  split; [apply mapToBankingOperation_unknown|].
  split; [exact Hreturns|].
  split; [intros e Hps; exact (detectIntent_normalizer_throws _ _ _ _ _ H Hqr Hps)|].
  split; [|split].
  - intros Ht. eexists. split; [exact (Hreturns _ (extractParameters_absent _ Ht))|].
    repeat split.
  - intros fp fields created Ht Hf Hp.
    destruct (extractParameters_stored _ _ _ _ Ht Hf Hp) as [Hps _].
    eexists. split; [exact (Hreturns _ Hps)|]. repeat split.
  - intros fp fields created key field Ht Hf Hk Hn.
    destruct (extractParameters_nullish_field _ _ _ _ _ _ Ht Hf Hk Hn) as [msg Hps].
    exists msg. exact (detectIntent_normalizer_throws _ _ _ _ _ H Hqr Hps).
Qed.

Lemma detectIntent_missing_intent_witness :
  (exists result,
     detectIntent (new (client_resolving response_without_intent) example_config) "hello"
     = Return result
     /\ intent result = "unknown"
     /\ confidence result = 0%float
     /\ requiresAuth result = Bool true)
  /\ exists cause,
       detectIntent (new (client_resolving response_without_intent_null_field)
                         example_config) "hello"
       = Throw (Error ("Failed to detect intent: " ++ cause)).
Proof.
  split.
  - destruct (detectIntent_missing_intent
                (new (client_resolving response_without_intent) example_config) "hello"
                response_without_intent _
                eq_refl eq_refl (or_introl eq_refl) (or_introl eq_refl))
      as (_ & _ & _ & Habsent & _).
    apply Habsent. reflexivity.
  - destruct (detectIntent_missing_intent
                (new (client_resolving response_without_intent_null_field) example_config)
                "hello" response_without_intent_null_field _
                eq_refl eq_refl (or_introl eq_refl) (or_introl eq_refl))
      as (_ & _ & _ & _ & _ & Hnull).
    apply (Hnull ObjectPrototype (list_to_map [ ("broken", Null) ]) [ "broken" ] "broken" Null).
    + reflexivity.
    + vm_compute. reflexivity.
    + vm_compute. reflexivity.
    + reflexivity.
Defined.

(** C7 (as stated) fails: a query result without an intent field is not
    refused as a malformed response; [detectIntent] returns a result. *)
Lemma missing_intent_is_not_an_error :
  exists result,
    detectIntent (new (client_resolving response_without_intent) example_config) "hello"
    = Return result
    /\ intent result = "unknown".
Proof. eexists. split; vm_compute; reflexivity. Qed.

(** C7 (as amended): [detectIntent] fails in one way only, with a plain
    [Error] whose message is ["Failed to detect intent: "] followed by the
    message of the cause, and in three cases only: when the provider call
    rejects, whatever the reason; when the response has no query result;
    and when normalizing the parameters of the response throws.  In every
    other case it returns a result.  A query result without an intent
    field is by itself no failure: the intent of the result is then
    ["unknown"]. *)
Theorem detectIntent_failures this message :
  (forall reason,
     Provider.detectIntent (sessionClient this) (request this message)
     = Provider.Rejected reason ->
     detectIntent this message
     = Throw (Error ("Failed to detect intent: " ++ message_of reason)))
  /\ (forall response,
        Provider.detectIntent (sessionClient this) (request this message)
        = Provider.Resolved response ->
        absent (Provider.queryResult response) ->
        detectIntent this message
        = Throw (Error "Failed to detect intent: No query result received from DialogFlow"))
  /\ (forall response queryResult e,
        Provider.detectIntent (sessionClient this) (request this message)
        = Provider.Resolved response ->
        Provider.queryResult response = Provider.present queryResult ->
        extractParameters (Provider.parameters queryResult) = Throw e ->
        detectIntent this message
        = Throw (Error ("Failed to detect intent: " ++ message_of e)))
  /\ (forall e,
        detectIntent this message = Throw e ->
        exists cause, e = Error ("Failed to detect intent: " ++ cause))
  /\ (forall response queryResult parameters,
        Provider.detectIntent (sessionClient this) (request this message)
        = Provider.Resolved response ->
        Provider.queryResult response = Provider.present queryResult ->
        extractParameters (Provider.parameters queryResult) = Return parameters ->
        exists result,
          detectIntent this message = Return result
          /\ intent result
             = Provider.string_or (intent_displayName queryResult) "unknown"
          /\ (absent (intent_displayName queryResult) -> intent result = "unknown")).
Proof.
  split; [apply detectIntent_rejected|].
  split; [apply detectIntent_no_queryResult|].
  split; [apply detectIntent_normalizer_throws|].
  split; [apply detectIntent_throws_Error|].
  intros response queryResult parameters H Hqr Hps.
  eexists. split; [exact (detectIntent_normalized _ _ _ _ _ H Hqr Hps)|].
  split; [reflexivity|]. simpl. intros [-> | ->]; reflexivity.
Qed.

Lemma detectIntent_failures_witness :
  detectIntent (new (client_rejecting (Error "14 UNAVAILABLE: No connection established"))
                    example_config) "hello"
  = Throw (Error "Failed to detect intent: 14 UNAVAILABLE: No connection established")
  /\ detectIntent (new (client_resolving response_without_result) example_config) "hello"
     = Throw (Error "Failed to detect intent: No query result received from DialogFlow")
  /\ detectIntent (new (client_resolving response_without_intent_null_field) example_config)
       "hello"
     = Throw (Error
                "Failed to detect intent: Cannot read properties of null (reading 'stringValue')").
Proof.
  split; [|split].
  - exact (proj1 (detectIntent_failures
                    (new (client_rejecting (Error "14 UNAVAILABLE: No connection established"))
                         example_config) "hello") _ eq_refl).
  - exact (proj1 (proj2 (detectIntent_failures
                           (new (client_resolving response_without_result) example_config)
                           "hello")) _ eq_refl (or_introl eq_refl)).
  - apply (proj1 (proj2 (proj2 (detectIntent_failures
                                  (new (client_resolving response_without_intent_null_field)
                                       example_config) "hello")))
             response_without_intent_null_field _ (TypeError _) eq_refl eq_refl).
    vm_compute. reflexivity.
Defined.

End Adapter.

(** ** Claims about the response formatter *)

Section Formatter.

Import DialogFlowService.

Lemma balance_rendered intentResult apiResponse (x : float) :
  intent intentResult = "account.balance" ->
  nullish apiResponse = false ->
  read apiResponse "balance" = Number x ->
  formatBankingResponse intentResult apiResponse
  = if truthy (Number x)
    then Return ("Your account balance is $" ++ toFixed x 2)
    else Return "I can help you check your account balance. Please wait while I retrieve this information.".
Proof.
  intros Hi Hn Hb. unfold formatBankingResponse. rewrite Hi.
  change (String.eqb "account.balance" "account.balance") with true. cbv iota.
  rewrite optprop_spec, Hn, Hb. cbn [mbind result_bind].
  destruct (truthy (Number x)); reflexivity.
Qed.

(** C9: for ["account.balance"] with an API result whose [balance] is 0
    the formatter answers as if no result were present: it returns the
    forward-looking acknowledgment, not ["Your account balance is $0.00"],
    because the branch tests the truthiness of the balance. *)
Theorem zero_balance_not_rendered intentResult apiResponse (x : float) :
  intent intentResult = "account.balance" ->
  nullish apiResponse = false ->
  read apiResponse "balance" = Number x ->
  (x =? 0)%float = true ->
  formatBankingResponse intentResult apiResponse
  = Return "I can help you check your account balance. Please wait while I retrieve this information."
  /\ formatBankingResponse intentResult apiResponse
     = formatBankingResponse intentResult Undefined
  /\ formatBankingResponse intentResult apiResponse
     <> Return "Your account balance is $0.00".
Proof.
  intros Hi Hn Hb Hx.
  assert (formatBankingResponse intentResult apiResponse
          = Return "I can help you check your account balance. Please wait while I retrieve this information.")
    as H.
  { rewrite (balance_rendered _ _ _ Hi Hn Hb). unfold truthy. by rewrite Hx. }
  split; [exact H|]. split.
  - rewrite H. unfold formatBankingResponse. rewrite Hi. reflexivity.
  - rewrite H. discriminate.
Qed.

Lemma zero_balance_not_rendered_witness :
  formatBankingResponse (recognized "account.balance" 0.95)
                        (literal [ ("balance", Number 0) ])
  = Return "I can help you check your account balance. Please wait while I retrieve this information.".
Proof.
  exact (proj1 (zero_balance_not_rendered
                  (recognized "account.balance" 0.95)
                  (literal [ ("balance", Number 0) ]) 0
                  eq_refl eq_refl eq_refl eq_refl)).
Defined.

Lemma transfer_acknowledged intentResult amount recipient :
  intent intentResult = "payment.transfer" ->
  nullish (parameters intentResult) = false ->
  truthy (read (read (parameters intentResult) "amount-of-money") "amount") = true ->
  read (read (parameters intentResult) "amount-of-money") "amount" = Number amount ->
  read (parameters intentResult) "recipient" = Str recipient ->
  formatBankingResponse intentResult Undefined
  = Return ("I'll help you transfer $" ++ numberToString amount ++ " to " ++ recipient
            ++ ". Please confirm this transaction.").
Proof.
  intros Hi Hn Ht Ha Hr. unfold formatBankingResponse. rewrite Hi.
  change (String.eqb "payment.transfer" "account.balance") with false.
  change (String.eqb "payment.transfer" "payment.transfer") with true. cbv iota.
  rewrite (prop_Return _ "amount-of-money" Hn). cbn [mbind result_bind].
  rewrite !optprop_spec.
  assert (nullish (read (parameters intentResult) "amount-of-money") = false) as Hm.
  { destruct (read (parameters intentResult) "amount-of-money"); try reflexivity;
      discriminate Ht. }
  rewrite Hm. cbn [mbind result_bind]. rewrite Ht. cbn [mbind result_bind].
  rewrite (prop_Return _ "recipient" Hn), Ha, Hr. reflexivity.
Qed.

(** C6 (as stated) fails: a transfer of 150 euros is acknowledged with a
    dollar sign, not with the ISO code, and without decimal places. *)
Lemma transfer_rendering_ignores_currency :
  formatBankingResponse (transfer_request 150 "EUR" "John") Undefined
  = Return "I'll help you transfer $150 to John. Please confirm this transaction.".
Proof. vm_compute. reflexivity. Qed.

(** C6 (as amended): for ["account.balance"], a truthy numeric balance is
    rendered as ["$"] followed by [toFixed(2)] of it, which for a finite
    balance of magnitude below 10^21 has exactly two decimal places; in
    particular [{balance: 1234.5}] gives ["Your account balance is
    $1234.50"].  The ["$"] is a literal of the templates: the transfer
    acknowledgment carries it whatever the currency code of the money
    parameter. *)
Theorem money_rendering :
  (forall intentResult apiResponse (x : float),
     intent intentResult = "account.balance" ->
     nullish apiResponse = false ->
     read apiResponse "balance" = Number x ->
     truthy (Number x) = true ->
     formatBankingResponse intentResult apiResponse
     = Return ("Your account balance is $" ++ toFixed x 2)
     /\ forall q, exact x = Some q -> (Qabs q < pow10 21)%Q ->
                  two_decimal_places (toFixed x 2))
  /\ formatBankingResponse (recognized "account.balance" 0.95)
                           (literal [ ("balance", Number 1234.5) ])
     = Return "Your account balance is $1234.50"
  /\ (forall (amount : float) recipient,
        truthy (Number amount) = true ->
        exists amountText,
          forall currency,
            formatBankingResponse (transfer_request amount currency recipient) Undefined
            = Return ("I'll help you transfer $" ++ amountText ++ " to " ++ recipient
                      ++ ". Please confirm this transaction.")).
Proof.
  split; [|split].
  - intros intentResult apiResponse x Hi Hn Hb Ht. split.
    + by rewrite (balance_rendered _ _ _ Hi Hn Hb), Ht.
    + intros q. apply toFixed_two_decimals.
  - vm_compute. reflexivity.
  - intros amount recipient Ht. exists (numberToString amount). intros currency.
    apply transfer_acknowledged; try reflexivity. exact Ht.
Qed.

Lemma money_rendering_witness :
  formatBankingResponse (recognized "account.balance" 0.95)
                        (literal [ ("balance", Number 1234.5) ])
  = Return ("Your account balance is $" ++ toFixed 1234.5 2)
  /\ two_decimal_places (toFixed 1234.5 2).
Proof.
  destruct (proj1 money_rendering (recognized "account.balance" 0.95)
              (literal [ ("balance", Number 1234.5) ]) 1234.5%float
              eq_refl eq_refl eq_refl eq_refl) as [H1 H2].
  split; [exact H1|].
  apply (H2 (inject_Z 5429388417957888 * Qpower 2 (-42))%Q).
  - vm_compute. reflexivity.
  - vm_compute. reflexivity.
Defined.

End Formatter.

(** ** Further properties of the parameter normalizer *)

Section NormalizerProperties.

Import DialogFlowService.

Lemma extractField_copies_equal extracted entry :
  MCPDialogFlowService.extractField extracted entry = extractField extracted entry.
Proof.
  destruct entry as [key field]. destruct (nullish field) eqn:Hn.
  - destruct field; try discriminate Hn; reflexivity.
  - by rewrite extractField_storeField, MCP_extractField_storeField.
Qed.

Lemma forEach_ext {A S} (f g : S -> A -> result S) l :
  (forall s a, f s a = g s a) -> forall s, forEach l f s = forEach l g s.
Proof.
  intros Hfg. induction l as [|a l IH]; intros s; simpl; [reflexivity|].
  rewrite Hfg. destruct (g s a); simpl; [apply IH|reflexivity].
Qed.

Lemma extractParameters_copies_equal parameters :
  MCPDialogFlowService.extractParameters parameters = extractParameters parameters.
Proof.
  unfold MCPDialogFlowService.extractParameters, extractParameters.
  destruct (truthy parameters) eqn:Ht; simpl; [|reflexivity].
  rewrite (prop_Return _ "fields" (truthy_not_nullish _ Ht)). simpl.
  unfold JS.or. destruct (truthy (read parameters "fields")); simpl.
  - apply forEach_ext. apply extractField_copies_equal.
  - by rewrite entries_literal_nil.
Qed.

(** X3: the two copies of the normalizer ([DialogFlowService.ts] and
    [dialogflow.js]) are interchangeable: their callbacks and the functions
    themselves return the same object, or throw the same error, on every
    input, well formed or not. *)
Theorem normalizer_copies_agree :
  (forall extracted entry,
     MCPDialogFlowService.extractField extracted entry = extractField extracted entry)
  /\ (forall parameters,
        MCPDialogFlowService.extractParameters parameters = extractParameters parameters).
Proof. split; [apply extractField_copies_equal|apply extractParameters_copies_equal]. Qed.

Lemma scalar_payload_normalized field v :
  scalar_payload field v -> normalizedField field = Some v.
Proof.
  intros [Hv [Hs|[Hs Hn]]]; unfold normalizedField.
  - rewrite Hs. destruct v; try reflexivity. congruence.
  - rewrite Hs, Hn. simpl. destruct v; try reflexivity. congruence.
Qed.

(** X4: on a well-formed struct, a field with a scalar payload is stored
    under its key with that payload: the [stringValue] if there is one
    (whatever else the field holds), else the [numberValue].  The test is
    [!== undefined], so an empty string and a zero are stored too.  (The
    key [__proto__] is the one exception: assigning to it stores nothing.) *)
Theorem normalize_scalar_field parameters fp (fields : gmap string value) created key field v :
  truthy parameters = true ->
  read parameters "fields" = Object fp fields created ->
  fields_present fields ->
  fields !! key = Some field ->
  scalar_payload field v ->
  key <> "__proto__" ->
  exists extracted,
    extractParameters parameters = Return extracted
    /\ MCPDialogFlowService.extractParameters parameters = Return extracted
    /\ own_property extracted key = Some v.
Proof.
  intros Ht Hf Hp Hk Hs Hkey.
  destruct (extractParameters_stored _ _ _ _ Ht Hf Hp) as [H1 H2].
  eexists. split; [exact H1|]. split; [exact H2|].
  apply (stored_own_kept key field); auto.
  - apply NoDup_fst_entries.
  - by apply elem_of_entries.
  - by apply scalar_payload_normalized.
Qed.

Lemma struct_with_scalars_present :
  fields_present
    (list_to_map [ ("note", literal [ ("stringValue", Str "") ]);
                   ("count", literal [ ("numberValue", Number 0) ]) ]).
Proof.
  intros k f H. apply elem_of_list_to_map_2 in H.
  repeat (apply elem_of_cons in H as [[= -> ->]|H]; [reflexivity|]).
  by apply elem_of_nil in H.
Qed.

Lemma normalize_scalar_field_witness :
  exists extracted,
    extractParameters struct_with_scalars = Return extracted
    /\ own_property extracted "note" = Some (Str "").
Proof.
  destruct (normalize_scalar_field struct_with_scalars ObjectPrototype _ _
              "note" (literal [ ("stringValue", Str "") ]) (Str "")
              eq_refl eq_refl struct_with_scalars_present)
    as (extracted & H1 & _ & H3).
  - vm_compute. reflexivity.
  - split; [discriminate|]. left. vm_compute. reflexivity.
  - discriminate.
  - exists extracted. split; [exact H1|exact H3].
Defined.

Lemma Put_own_inv o k v key w :
  own_property (Put o k v) key = Some w ->
  (k = key /\ v = w) \/ own_property o key = Some w.
Proof.
  destruct o; simpl; auto.
  destruct (_ && _)%bool.
  - destruct v; simpl; auto.
  - simpl. destruct (decide (k = key)) as [->|Hne].
    + rewrite lookup_insert_eq. intros [= ->]. auto.
    + rewrite lookup_insert_ne by done. auto.
Qed.

Lemma stored_own_inv key w l : forall acc,
  own_property (foldl storeField acc l) key = Some w ->
  own_property acc key = Some w
  \/ exists f, (key, f) ∈ l /\ normalizedField f = Some w.
Proof.
  induction l as [|[k f] l IH]; intros acc H; simpl in *; [auto|].
  apply IH in H as [H|(f' & Hin & Hn)].
  - unfold storeField in H. simpl in H.
    destruct (normalizedField f) as [v|] eqn:Hn; [|auto].
    apply Put_own_inv in H as [[-> ->]|H]; [|auto].
    right. exists f. split; [apply list_elem_of_here|exact Hn].
  - right. exists f'. split; [by apply list_elem_of_further|exact Hn].
Qed.

Lemma normalizedField_shape field v :
  normalizedField field = Some v ->
  v = read field "stringValue"
  \/ v = read field "numberValue"
  \/ exists amount currency, v = money amount currency.
Proof.
  unfold normalizedField.
  destruct (negb (is_undefined (read field "stringValue"))); [intros [= <-]; auto|].
  destruct (negb (is_undefined (read field "numberValue"))); [intros [= <-]; auto|].
  destruct (_ && _)%bool; [|discriminate].
  intros [= <-]. right. right. eauto.
Qed.

(** X5: the normalizer invents nothing.  On a well-formed struct every own
    property of the result is the key of a field of the struct, and its
    value is that field's [stringValue], its [numberValue], or a money
    value. *)
Theorem normalize_no_invented_keys parameters fp (fields : gmap string value) created :
  truthy parameters = true ->
  read parameters "fields" = Object fp fields created ->
  fields_present fields ->
  exists extracted,
    extractParameters parameters = Return extracted
    /\ forall key v,
         own_property extracted key = Some v ->
         exists field,
           fields !! key = Some field
           /\ (v = read field "stringValue"
               \/ v = read field "numberValue"
               \/ exists amount currency, v = money amount currency).
Proof.
  intros Ht Hf Hp.
  destruct (extractParameters_stored _ _ _ _ Ht Hf Hp) as [H1 _].
  eexists. split; [exact H1|].
  intros key v Hown. apply stored_own_inv in Hown as [Hown|(f & Hin & Hn)].
  - discriminate Hown.
  - exists f. split; [by apply elem_of_entries in Hin|by apply normalizedField_shape].
Qed.

Lemma normalize_no_invented_keys_witness :
  exists extracted,
    extractParameters (struct_with_amount 150) = Return extracted
    /\ forall key v,
         own_property extracted key = Some v ->
         exists field,
           (list_to_map [ ("amount-of-money", amount_only 150) ] : gmap string value)
             !! key = Some field
           /\ (v = read field "stringValue"
               \/ v = read field "numberValue"
               \/ exists amount currency, v = money amount currency).
Proof.
  exact (normalize_no_invented_keys (struct_with_amount 150) ObjectPrototype _ _
           eq_refl eq_refl (struct_with_amount_present 150)).
Defined.

(** X6: the normalizer is not total on malformed input.  If any field of
    the struct is [null] or [undefined], both copies throw a TypeError and
    return nothing, whatever the other fields hold. *)
Theorem normalize_null_field_throws parameters fp (fields : gmap string value) created
        key field :
  truthy parameters = true ->
  read parameters "fields" = Object fp fields created ->
  fields !! key = Some field ->
  nullish field = true ->
  exists msg,
    extractParameters parameters = Throw (TypeError msg)
    /\ MCPDialogFlowService.extractParameters parameters = Throw (TypeError msg).
Proof.
  intros Ht Hf Hk Hn.
  destruct (extractParameters_nullish_field _ _ _ _ _ _ Ht Hf Hk Hn) as [msg H].
  exists msg. split; [exact H|]. by rewrite extractParameters_copies_equal.
Qed.

Lemma normalize_null_field_throws_witness :
  exists msg,
    extractParameters struct_with_null = Throw (TypeError msg)
    /\ MCPDialogFlowService.extractParameters struct_with_null = Throw (TypeError msg).
Proof.
  apply (normalize_null_field_throws struct_with_null ObjectPrototype
           (list_to_map [ ("broken", Null) ]) [ "broken" ] "broken" Null).
  - reflexivity.
  - vm_compute. reflexivity.
  - vm_compute. reflexivity.
  - reflexivity.
Defined.

Lemma currency_code_default currency :
  truthy (optread currency "stringValue") = false ->
  currency_code currency = Str "USD".
Proof. intros H. unfold currency_code, JS.or. unfold optread in H. by rewrite H. Qed.

(** X7: the currency of a money value falls back to ["USD"] not only when
    the [currency] sub-field is absent, but whenever it yields no non-empty
    string: an empty [stringValue], or a payload of another kind. *)
Theorem normalize_currency_fallback parameters fp (fields : gmap string value) created
        key field amount currency :
  truthy parameters = true ->
  read parameters "fields" = Object fp fields created ->
  fields_present fields ->
  fields !! key = Some field ->
  money_payload field amount currency ->
  truthy (optread currency "stringValue") = false ->
  exists extracted,
    extractParameters parameters = Return extracted
    /\ MCPDialogFlowService.extractParameters parameters = Return extracted
    /\ Get extracted key = Data (money (read amount "numberValue") (Str "USD")).
Proof.
  intros Ht Hf Hp Hk Hm Hc.
  destruct (extractParameters_money _ _ _ _ _ _ _ _ Ht Hf Hp Hk Hm)
    as (extracted & H1 & H2 & H3).
  exists extracted. split; [exact H1|]. split; [exact H2|].
  by rewrite <- (currency_code_default _ Hc).
Qed.

Lemma amount_with_currency_present x currency :
  fields_present (list_to_map [ ("amount-of-money", amount_with_currency x currency) ]).
Proof.
  intros k f H. apply elem_of_list_to_map_2 in H.
  apply elem_of_cons in H as [[= -> ->]|H]; [reflexivity|by apply elem_of_nil in H].
Qed.

Lemma normalize_currency_fallback_witness :
  exists extracted,
    extractParameters
      (literal [ ("fields",
                  literal [ ("amount-of-money",
                             amount_with_currency 20 (literal [ ("stringValue", Str "") ])) ]) ])
    = Return extracted
    /\ Get extracted "amount-of-money" = Data (money (Number 20) (Str "USD")).
Proof.
  destruct (normalize_currency_fallback
              (literal [ ("fields",
                          literal [ ("amount-of-money",
                                     amount_with_currency 20
                                       (literal [ ("stringValue", Str "") ])) ]) ])
              ObjectPrototype _ _ "amount-of-money"
              (amount_with_currency 20 (literal [ ("stringValue", Str "") ]))
              (literal [ ("numberValue", Number 20) ])
              (literal [ ("stringValue", Str "") ])
              eq_refl eq_refl
              (amount_with_currency_present 20 (literal [ ("stringValue", Str "") ])))
    as (extracted & H1 & _ & H3).
  - vm_compute. reflexivity.
  - unfold money_payload. vm_compute. repeat split; reflexivity.
  - vm_compute. reflexivity.
  - exists extracted. split; [exact H1|exact H3].
Defined.

Lemma forEach_object l : forall acc extracted,
  is_object acc = true ->
  forEach l extractField acc = Return extracted -> is_object extracted = true.
Proof.
  induction l as [|[k f] l IH]; intros acc extracted Hobj; cbn [forEach].
  - by intros [= <-].
  - destruct (nullish f) eqn:Hn.
    + destruct f; try discriminate Hn; discriminate.
    + rewrite (extractField_storeField _ _ _ Hn). cbn [mbind result_bind].
      apply IH. by apply storeField_object.
Qed.

Lemma extractParameters_object parameters extracted :
  extractParameters parameters = Return extracted -> is_object extracted = true.
Proof.
  unfold extractParameters. destruct (truthy parameters) eqn:Ht; simpl.
  - rewrite (prop_Return _ "fields" (truthy_not_nullish _ Ht)). simpl.
    by apply forEach_object.
  - by intros [= <-].
Qed.

Lemma forEach_throws_TypeError l : forall acc e,
  forEach l extractField acc = Throw e -> exists msg, e = TypeError msg.
Proof.
  induction l as [|[k f] l IH]; intros acc e; cbn [forEach]; [discriminate|].
  destruct (nullish f) eqn:Hn.
  - destruct f; try discriminate Hn; simpl; intros [= <-]; eauto.
  - rewrite (extractField_storeField _ _ _ Hn). cbn [mbind result_bind]. apply IH.
Qed.

Lemma extractParameters_throws_TypeError parameters e :
  extractParameters parameters = Throw e -> exists msg, e = TypeError msg.
Proof.
  unfold extractParameters. destruct (truthy parameters) eqn:Ht; simpl; [|discriminate].
  rewrite (prop_Return _ "fields" (truthy_not_nullish _ Ht)). simpl.
  apply forEach_throws_TypeError.
Qed.

End NormalizerProperties.

(** ** Further properties of the adapter and the intent table *)

Section AdapterProperties.

Import DialogFlowService Readme.

(** What a returned result is made of. *)
Lemma detectIntent_Return_inv this message result :
  detectIntent this message = Return result ->
  exists response queryResult parameters,
    Provider.detectIntent (sessionClient this) (request this message)
    = Provider.Resolved response
    /\ Provider.queryResult response = Provider.present queryResult
    /\ extractParameters (Provider.parameters queryResult) = Return parameters
    /\ result
       = {| intent := Provider.string_or (intent_displayName queryResult) "unknown";
            confidence :=
              Provider.number_or (Provider.intentDetectionConfidence queryResult) 0;
            parameters := parameters;
            fulfillmentText :=
              Provider.string_or (Provider.fulfillmentText queryResult) "";
            requiresAuth :=
              descriptor_member
                (Provider.string_or (intent_displayName queryResult) "unknown")
                "requiresAuth";
            apiEndpoint :=
              descriptor_member
                (Provider.string_or (intent_displayName queryResult) "unknown")
                "apiEndpoint";
            permission :=
              descriptor_member
                (Provider.string_or (intent_displayName queryResult) "unknown")
                "permission" |}.
Proof.
  unfold detectIntent.
  destruct (Provider.detectIntent _ _) as [response|reason] eqn:Hcall; run;
    [|discriminate].
  destruct (Provider.queryResult response) as [| |queryResult] eqn:Hqr; run;
    try discriminate.
  destruct (extractParameters _) as [parameters|e] eqn:Hps; run; [|discriminate].
  rewrite !member_descriptor. run. intros [= <-].
  exists response, queryResult, parameters. auto.
Qed.

Lemma string_or_nonempty x dflt : dflt <> "" -> Provider.string_or x dflt <> "".
Proof.
  intros Hd. destruct x as [| |s]; simpl; auto.
  destruct (String.eqb_spec s ""); auto.
Qed.

Lemma number_or_zero_not_NaN x : isNaN (Provider.number_or x 0) = false.
Proof.
  destruct x as [| |n]; simpl; try reflexivity.
  destruct (n =? 0)%float eqn:Hz; simpl; [reflexivity|].
  destruct (isNaN n) eqn:Hn; simpl; [reflexivity|exact Hn].
Qed.

(** X8: an invariant of the twelve-entry intent table.  Every entry that
    names a permission requires authentication; an entry without an
    endpoint names no permission; and every state-changing intent requires
    authentication, has an endpoint and is guarded by a [write:]
    permission. *)
Theorem descriptors_guarded intent parameters :
  intent ∈ known_intents ->
  exists d,
    mapToBankingOperation intent parameters = Data d
    /\ own_property intentMapping intent = Some d
    /\ (read d "permission" <> Null -> read d "requiresAuth" = Bool true)
    /\ (read d "apiEndpoint" = Null -> read d "permission" = Null)
    /\ (intent ∈ state_changing_intents ->
        read d "requiresAuth" = Bool true
        /\ truthy (read d "apiEndpoint") = true
        /\ exists what, read d "permission" = Str ("write:" ++ what)).
Proof.
  intros Hk. unfold known_intents in Hk.
  repeat (apply elem_of_cons in Hk as [->|Hk];
          [eexists; split; [vm_compute; reflexivity|]; split; [vm_compute; reflexivity|];
           split; [vm_compute; try reflexivity; intros H; try reflexivity; by destruct H|];
           split; [vm_compute; intros H; try reflexivity; discriminate H|];
           intros Hs;
           first [ split; [vm_compute; reflexivity|]; split; [vm_compute; reflexivity|];
                   eexists; vm_compute; reflexivity
                 | exfalso; revert Hs; unfold state_changing_intents; not_in_literals ]|]).
  by apply elem_of_nil in Hk.
Qed.

Lemma descriptors_guarded_witness :
  exists d,
    mapToBankingOperation "payment.transfer" Undefined = Data d
    /\ read d "requiresAuth" = Bool true
    /\ exists what, read d "permission" = Str ("write:" ++ what).
Proof.
  assert ("payment.transfer" ∈ known_intents) as Hk
    by (unfold known_intents; in_literals).
  assert ("payment.transfer" ∈ state_changing_intents) as Hs
    by (unfold state_changing_intents; in_literals).
  destruct (descriptors_guarded "payment.transfer" Undefined Hk)
    as (d & Hd & _ & _ & _ & Hw).
  destruct (Hw Hs) as (Ha & _ & Hp).
  exists d. split; [exact Hd|]. split; [exact Ha|exact Hp].
Defined.

Lemma descriptor_requiresAuth name :
  (name ∈ public_intents /\ descriptor_member name "requiresAuth" = Bool false)
  \/ (name ∈ inherited_names /\ descriptor_member name "requiresAuth" = Undefined)
  \/ ((name ∉ public_intents) /\ (name ∉ inherited_names)
      /\ descriptor_member name "requiresAuth" = Bool true).
Proof.
  destruct (decide (name ∈ inherited_names)) as [Hi|Hi].
  { right. left. split; [exact Hi|].
    unfold inherited_names, ObjectPrototype_methods in Hi.
    repeat (apply elem_of_cons in Hi as [->|Hi]; [vm_compute; reflexivity|]).
    by apply elem_of_nil in Hi. }
  destruct (decide (name ∈ known_intents)) as [Hk|Hk].
  - unfold known_intents in Hk.
    repeat (apply elem_of_cons in Hk as [->|Hk];
            [first [ left; split; [unfold public_intents; in_literals|vm_compute; reflexivity]
                   | right; right; split; [unfold public_intents; not_in_literals|];
                     split; [exact Hi|vm_compute; reflexivity] ]|]).
    by apply elem_of_nil in Hk.
  - right. right. split.
    + intros Hp. apply Hk. unfold public_intents in Hp. unfold known_intents.
      repeat (apply elem_of_cons in Hp as [->|Hp]; [in_literals|]).
      by apply elem_of_nil in Hp.
    + split; [exact Hi|]. unfold descriptor_member.
      unfold mapToBankingOperation, intentMapping.
      rewrite Get_literal_absent; [reflexivity|exact Hk|exact Hi].
Qed.

Lemma inherited_no_endpoint name :
  name ∈ inherited_names -> descriptor_member name "apiEndpoint" = Undefined.
Proof.
  intros Hi. unfold inherited_names, ObjectPrototype_methods in Hi.
  repeat (apply elem_of_cons in Hi as [->|Hi]; [vm_compute; reflexivity|]).
  by apply elem_of_nil in Hi.
Qed.

(** X9: the [requiresAuth] member of every result [detectIntent] returns,
    whatever the provider answered: [false] exactly for the three public
    intents, [undefined] for the names [Object.prototype] supplies, and
    [true] for every other name, recognized or not. *)
Theorem detectIntent_requiresAuth this message result :
  detectIntent this message = Return result ->
  (intent result ∈ public_intents /\ requiresAuth result = Bool false)
  \/ (intent result ∈ inherited_names /\ requiresAuth result = Undefined)
  \/ ((intent result ∉ public_intents) /\ (intent result ∉ inherited_names)
      /\ requiresAuth result = Bool true).
Proof.
  intros H. apply detectIntent_Return_inv in H
    as (response & queryResult & parameters & _ & _ & _ & ->). simpl.
  apply descriptor_requiresAuth.
Qed.

Lemma detectIntent_requiresAuth_witness :
  exists result,
    detectIntent
      (new (client_resolving
              (response_for "general.greeting" (Provider.present 0.9%float) Undefined))
           example_config) "hello"
    = Return result
    /\ ((intent result ∈ public_intents /\ requiresAuth result = Bool false)
        \/ (intent result ∈ inherited_names /\ requiresAuth result = Undefined)
        \/ ((intent result ∉ public_intents) /\ (intent result ∉ inherited_names)
            /\ requiresAuth result = Bool true)).
Proof.
  eexists. split; [vm_compute; reflexivity|].
  apply (detectIntent_requiresAuth
           (new (client_resolving
                   (response_for "general.greeting" (Provider.present 0.9%float) Undefined))
                example_config) "hello").
  vm_compute. reflexivity.
Defined.

(** X10: every result [detectIntent] returns is well formed: the intent
    name is not empty, the confidence is a number (never NaN, since a
    missing, zero or NaN score is replaced by 0), and the parameters are
    an object. *)
Theorem detectIntent_result_well_formed this message result :
  detectIntent this message = Return result ->
  intent result <> ""
  /\ isNaN (confidence result) = false
  /\ is_object (parameters result) = true.
Proof.
  intros H. apply detectIntent_Return_inv in H
    as (response & queryResult & parameters & _ & _ & Hps & ->). simpl.
  split; [by apply string_or_nonempty|].
  split; [apply number_or_zero_not_NaN|by apply (extractParameters_object _ _ Hps)].
Qed.

Lemma detectIntent_result_well_formed_witness :
  exists result,
    detectIntent
      (new (client_resolving
              (response_for "" (Provider.present nan) (struct_with_amount 150)))
           example_config) "send 150"
    = Return result
    /\ intent result <> ""
    /\ isNaN (confidence result) = false
    /\ is_object (parameters result) = true.
Proof.
  eexists. split; [vm_compute; reflexivity|].
  apply (detectIntent_result_well_formed
           (new (client_resolving
                   (response_for "" (Provider.present nan) (struct_with_amount 150)))
                example_config) "send 150").
  vm_compute. reflexivity.
Defined.

(** X11: adapter and router composed.  A response whose confidence score
    is missing, zero or NaN yields confidence 0, and the router then only
    asks for clarification, whatever intent was matched. *)
Theorem missing_confidence_clarified this message response queryResult result :
  Provider.detectIntent (sessionClient this) (request this message)
  = Provider.Resolved response ->
  Provider.queryResult response = Provider.present queryResult ->
  absent (Provider.intentDetectionConfidence queryResult)
  \/ (exists n, Provider.intentDetectionConfidence queryResult = Provider.present n
                /\ ((n =? 0)%float = true \/ isNaN n = true)) ->
  detectIntent this message = Return result ->
  confidence result = 0%float
  /\ handleIntent result = [requestClarification result].
Proof.
  intros Hcall Hqr Hconf H. apply detectIntent_Return_inv in H
    as (response' & queryResult' & parameters & Hcall' & Hqr' & _ & ->).
  rewrite Hcall in Hcall'. injection Hcall' as <-.
  rewrite Hqr in Hqr'. injection Hqr' as <-.
  assert (Provider.number_or (Provider.intentDetectionConfidence queryResult) 0 = 0%float)
    as Hzero.
  { destruct Hconf as [[-> | ->]|(n & -> & Hn)]; try reflexivity.
    simpl. destruct Hn as [-> | ->]; [reflexivity|by rewrite orb_true_r]. }
  split; [exact Hzero|]. unfold handleIntent. simpl. rewrite Hzero. reflexivity.
Qed.

Lemma missing_confidence_clarified_witness :
  exists result,
    detectIntent
      (new (client_resolving
              (response_for "payment.transfer" Provider.null (struct_with_amount 150)))
           example_config) "send 150"
    = Return result
    /\ confidence result = 0%float
    /\ handleIntent result = [requestClarification result].
Proof.
  eexists. split; [vm_compute; reflexivity|].
  apply (missing_confidence_clarified
           (new (client_resolving
                   (response_for "payment.transfer" Provider.null (struct_with_amount 150)))
                example_config) "send 150"
           (response_for "payment.transfer" Provider.null (struct_with_amount 150)) _
           _ eq_refl eq_refl (or_introl (or_intror eq_refl))).
  vm_compute. reflexivity.
Defined.

(** X12: a single [null] field among the provider's parameters makes the
    whole recognition fail: [detectIntent] swallows the TypeError of the
    normalizer and throws a generic Error, although intent and confidence
    were delivered. *)
Theorem detectIntent_null_field_fails this message response queryResult
        fp (fields : gmap string value) created key field :
  Provider.detectIntent (sessionClient this) (request this message)
  = Provider.Resolved response ->
  Provider.queryResult response = Provider.present queryResult ->
  truthy (Provider.parameters queryResult) = true ->
  read (Provider.parameters queryResult) "fields" = Object fp fields created ->
  fields !! key = Some field ->
  nullish field = true ->
  exists cause,
    detectIntent this message = Throw (Error ("Failed to detect intent: " ++ cause)).
Proof.
  intros Hcall Hqr Ht Hf Hk Hn.
  destruct (extractParameters_nullish_field _ _ _ _ _ _ Ht Hf Hk Hn) as [msg Hps].
  exists msg. unfold detectIntent. rewrite Hcall. run. rewrite Hqr, Hps. reflexivity.
Qed.

Lemma detectIntent_null_field_fails_witness :
  exists cause,
    detectIntent
      (new (client_resolving
              (response_for "account.balance" (Provider.present 0.9%float) struct_with_null))
           example_config) "balance"
    = Throw (Error ("Failed to detect intent: " ++ cause)).
Proof.
  apply (detectIntent_null_field_fails
           (new (client_resolving
                   (response_for "account.balance" (Provider.present 0.9%float)
                      struct_with_null))
                example_config) "balance"
           (response_for "account.balance" (Provider.present 0.9%float) struct_with_null) _
           ObjectPrototype (list_to_map [ ("broken", Null) ]) [ "broken" ] "broken" Null
           eq_refl eq_refl eq_refl).
  - vm_compute. reflexivity.
  - vm_compute. reflexivity.
  - reflexivity.
Defined.

End AdapterProperties.

(** ** Further properties of the formatter *)

Section FormatterProperties.

Import DialogFlowService.

Lemma eqb_not_in (intent : string) (l : list string) x :
  intent ∉ l -> x ∈ l -> String.eqb intent x = false.
Proof. intros Hn Hx. apply String.eqb_neq. intros ->. by apply Hn. Qed.

(** X13: for every intent other than the five with a template, the
    formatter ignores the API response altogether and returns the
    provider's fulfillment text, or the generic sentence when that text is
    empty. *)
Theorem formatter_default_branch intentResult apiResponse :
  intent intentResult ∉ templated_intents ->
  formatBankingResponse intentResult apiResponse
  = Return (if String.eqb (fulfillmentText intentResult) ""
            then "I can help you with that. Let me process your request."
            else fulfillmentText intentResult).
Proof.
  intros Hn. unfold formatBankingResponse.
  rewrite !(eqb_not_in _ _ _ Hn) by (unfold templated_intents; in_literals).
  reflexivity.
Qed.

Lemma formatter_default_branch_witness :
  formatBankingResponse (recognized "transaction.history" 0.9) Null
  = Return "I can help you with that. Let me process your request.".
Proof.
  apply (formatter_default_branch (recognized "transaction.history" 0.9) Null).
  unfold templated_intents. simpl. not_in_literals.
Defined.

Lemma nonempty_bind {A} (m : result A) (k : A -> result string) :
  (forall a, nonempty_result (k a)) -> nonempty_result (m ≫= k).
Proof.
  intros Hk text. destruct m as [a|e]; cbn [mbind result_bind]; [apply Hk|discriminate].
Qed.

Lemma nonempty_if (b : bool) (x y : result string) :
  nonempty_result x -> nonempty_result y -> nonempty_result (if b then x else y).
Proof. by destruct b. Qed.

Lemma nonempty_Return s : s <> "" -> nonempty_result (Return s).
Proof. intros Hs text [= <-]. exact Hs. Qed.

(** X14: the formatter never returns an empty reply: whatever the intent,
    the parameters and the API response, a returned text is not the empty
    string. *)
Theorem formatter_never_empty intentResult apiResponse text :
  formatBankingResponse intentResult apiResponse = Return text -> text <> "".
Proof.
  revert text. change (nonempty_result (formatBankingResponse intentResult apiResponse)).
  unfold formatBankingResponse. cbv zeta.
  repeat first [ apply nonempty_if
               | apply nonempty_bind; intros ?
               | apply nonempty_Return ].
  all: try discriminate.
  destruct (String.eqb_spec (fulfillmentText intentResult) ""); [discriminate|assumption].
Qed.

Lemma formatter_never_empty_witness :
  exists text,
    formatBankingResponse (card_block_request "credit card") Null = Return text
    /\ text <> "".
Proof.
  eexists. split; [vm_compute; reflexivity|].
  apply (formatter_never_empty (card_block_request "credit card") Null).
  vm_compute. reflexivity.
Defined.

(** X15: the card-block template.  The card is named by the [card-type]
    parameter, or ["card"] when that is missing or empty; the sentence
    reports the block as done when the API response has a truthy
    [success], and announces it otherwise, also when there is no API
    response at all. *)
Theorem card_block_rendering intentResult apiResponse cardType :
  intent intentResult = "card.block" ->
  nullish (parameters intentResult) = false ->
  (read (parameters intentResult) "card-type" = Str cardType /\ cardType <> ""
   \/ (truthy (read (parameters intentResult) "card-type") = false /\ cardType = "card")) ->
  formatBankingResponse intentResult apiResponse
  = Return (if truthy (optread apiResponse "success")
            then "Your " ++ cardType
                 ++ " has been successfully blocked for security. A replacement card will be sent to you."
            else "I'll block your " ++ cardType
                 ++ " immediately for security. This action cannot be undone.").
Proof.
  intros Hi Hn Hc. unfold formatBankingResponse. rewrite Hi.
  change (String.eqb "card.block" "account.balance") with false.
  change (String.eqb "card.block" "payment.transfer") with false.
  change (String.eqb "card.block" "card.block") with true. cbv iota.
  rewrite (prop_Return _ "card-type" Hn), optprop_spec. cbn [mbind result_bind].
  fold (optread apiResponse "success").
  assert (ToString (read (parameters intentResult) "card-type" ||| Str "card")
          = Return cardType) as ->.
  { unfold JS.or. destruct Hc as [[-> Hne]|[-> ->]]; [|reflexivity].
    simpl. apply String.eqb_neq in Hne. by rewrite Hne. }
  destruct (truthy (optread apiResponse "success")); reflexivity.
Qed.

Lemma card_block_rendering_witness :
  formatBankingResponse (card_block_request "credit card") Null
  = Return "I'll block your credit card immediately for security. This action cannot be undone.".
Proof.
  apply (card_block_rendering (card_block_request "credit card") Null "credit card").
  - reflexivity.
  - reflexivity.
  - left. split; [vm_compute; reflexivity|discriminate].
Defined.

(** X16: the balance template assumes a number.  When the API response
    carries a truthy [balance] that is not a number (a string such as
    ["1234.50"], say), [toFixed] is not a function and the formatter
    throws a TypeError instead of returning a text. *)
Theorem balance_not_a_number_throws intentResult apiResponse balance :
  intent intentResult = "account.balance" ->
  nullish apiResponse = false ->
  read apiResponse "balance" = balance ->
  truthy balance = true ->
  (forall x, balance <> Number x) ->
  formatBankingResponse intentResult apiResponse
  = Throw (TypeError "apiResponse.balance.toFixed is not a function").
Proof.
  intros Hi Hn Hb Ht Hx. unfold formatBankingResponse. rewrite Hi.
  change (String.eqb "account.balance" "account.balance") with true. cbv iota.
  rewrite optprop_spec, Hn, Hb. cbn [mbind result_bind]. rewrite Ht.
  destruct balance; try discriminate Ht; try reflexivity.
  exfalso. by apply (Hx x).
Qed.

Lemma balance_not_a_number_throws_witness :
  formatBankingResponse (recognized "account.balance" 0.95)
    (literal [ ("balance", Str "1234.50") ])
  = Throw (TypeError "apiResponse.balance.toFixed is not a function").
Proof.
  apply (balance_not_a_number_throws (recognized "account.balance" 0.95)
           (literal [ ("balance", Str "1234.50") ]) (Str "1234.50")).
  - reflexivity.
  - reflexivity.
  - vm_compute. reflexivity.
  - reflexivity.
  - discriminate.
Defined.

(** X17: the transfer template does not check its slots.  Without a
    usable money value the amount is read from [parameters.amount], and
    amount and recipient are interpolated as JavaScript prints them, so a
    missing slot appears as the word [undefined] in the confirmation
    request. *)
Theorem transfer_missing_slots intentResult amountText recipientText :
  intent intentResult = "payment.transfer" ->
  nullish (parameters intentResult) = false ->
  truthy (optread (read (parameters intentResult) "amount-of-money") "amount") = false ->
  ToString (read (parameters intentResult) "amount") = Return amountText ->
  ToString (read (parameters intentResult) "recipient") = Return recipientText ->
  formatBankingResponse intentResult Undefined
  = Return ("I'll help you transfer $" ++ amountText ++ " to " ++ recipientText
            ++ ". Please confirm this transaction.").
Proof.
  intros Hi Hn Hm Ha Hr. unfold formatBankingResponse. rewrite Hi.
  change (String.eqb "payment.transfer" "account.balance") with false.
  change (String.eqb "payment.transfer" "payment.transfer") with true. cbv iota.
  rewrite (prop_Return _ "amount-of-money" Hn). cbn [mbind result_bind].
  rewrite !optprop_spec. cbn [mbind result_bind]. unfold optread in Hm. rewrite Hm.
  rewrite (prop_Return _ "amount" Hn), (prop_Return _ "recipient" Hn).
  cbn [mbind result_bind nullish truthy]. rewrite Ha, Hr. reflexivity.
Qed.

Lemma transfer_missing_slots_witness :
  formatBankingResponse (recognized "payment.transfer" 0.95) Undefined
  = Return "I'll help you transfer $undefined to undefined. Please confirm this transaction.".
Proof.
  apply (transfer_missing_slots (recognized "payment.transfer" 0.95) "undefined" "undefined").
  - reflexivity.
  - reflexivity.
  - vm_compute. reflexivity.
  - vm_compute. reflexivity.
  - vm_compute. reflexivity.
Defined.

End FormatterProperties.

(** ** The backend service: [mapToMCPAction] and [processNaturalLanguage] *)

Section BackendProperties.

Lemma mapToMCPAction_fallback intent parameters userId :
  nullish parameters = false ->
  intent ∉ mcp_intents -> intent ∉ inherited_names ->
  MCPDialogFlowService.mapToMCPAction intent parameters userId
  = Return (Data (unknown_action intent parameters userId)).
Proof.
  intros Hn Hk Hi. unfold MCPDialogFlowService.mapToMCPAction.
  rewrite !(prop_Return parameters _ Hn). cbn [mbind result_bind].
  rewrite !optprop_spec. cbn [mbind result_bind].
  rewrite Get_literal_absent; [reflexivity|exact Hk|exact Hi].
Qed.

Lemma mapToMCPAction_null intent parameters userId :
  nullish parameters = true ->
  exists msg,
    MCPDialogFlowService.mapToMCPAction intent parameters userId = Throw (TypeError msg).
Proof.
  intros Hn. destruct parameters; try discriminate Hn; simpl; eauto.
Qed.

Lemma mapToMCPAction_truthy intent parameters userId a :
  MCPDialogFlowService.mapToMCPAction intent parameters userId = Return a ->
  truthy_any a = true.
Proof.
  destruct (nullish parameters) eqn:Hn.
  - destruct (mapToMCPAction_null intent parameters userId Hn) as [msg ->]. discriminate.
  - unfold MCPDialogFlowService.mapToMCPAction.
    rewrite !(prop_Return parameters _ Hn). cbn [mbind result_bind].
    rewrite !optprop_spec. cbn [mbind result_bind].
    intros [= <-]. destruct (truthy_any (Get _ intent)) eqn:E; [exact E|reflexivity].
Qed.

Lemma mapToMCPAction_Return intent parameters userId :
  nullish parameters = false ->
  exists a, MCPDialogFlowService.mapToMCPAction intent parameters userId = Return a.
Proof.
  intros Hn. unfold MCPDialogFlowService.mapToMCPAction.
  rewrite !(prop_Return parameters _ Hn). cbn [mbind result_bind].
  rewrite !optprop_spec. cbn [mbind result_bind]. eauto.
Qed.

Lemma mapToMCPAction_transfer parameters userId :
  nullish parameters = false ->
  MCPDialogFlowService.mapToMCPAction "payment.transfer" parameters userId
  = Return (Data (MCPDialogFlowService.action "create_transfer"
         [ ("userId", userId);
           ("amount", optread (read parameters "amount-of-money") "amount");
           ("currency", optread (read parameters "amount-of-money") "currency" ||| Str "USD");
           ("recipient", read parameters "recipient");
           ("fromAccount", read parameters "from-account") ])).
Proof.
  intros Hn. unfold MCPDialogFlowService.mapToMCPAction.
  rewrite !(prop_Return parameters _ Hn). cbn [mbind result_bind].
  rewrite !optprop_spec. cbn [mbind result_bind].
  reflexivity.
Qed.

Lemma currency_code_truthy currency : truthy (currency_code currency) = true.
Proof.
  unfold currency_code, JS.or.
  destruct (truthy (if nullish currency then Undefined else read currency "stringValue")) eqn:E;
    [exact E|reflexivity].
Qed.

Lemma read_Get o k v : Get o k = Data v -> read o k = v.
Proof. unfold read. by intros ->. Qed.

Lemma is_object_not_nullish v : is_object v = true -> nullish v = false.
Proof. by destruct v. Qed.

(** X18: [mapToMCPAction] fails exactly on missing parameters.  With
    [null] or [undefined] parameters it throws a TypeError, whatever the
    intent (all nine entries of the action map are built before the
    lookup); with any other parameters it returns, and what it returns is
    truthy, so that a caller's test of the action never fails. *)
Theorem mapToMCPAction_outcome intent parameters userId :
  (nullish parameters = true ->
   exists msg,
     MCPDialogFlowService.mapToMCPAction intent parameters userId = Throw (TypeError msg))
  /\ (nullish parameters = false ->
      exists a,
        MCPDialogFlowService.mapToMCPAction intent parameters userId = Return a
        /\ truthy_any a = true).
Proof.
  split; intros Hn; [by apply mapToMCPAction_null|].
  destruct (mapToMCPAction_Return intent parameters userId Hn) as [a Ha].
  exists a. split; [exact Ha|exact (mapToMCPAction_truthy _ _ _ _ Ha)].
Qed.

(** X19: an intent that is neither one of the nine keys of the action map
    nor a name inherited from [Object.prototype] maps to the fallback
    action: tool ["unknown_intent"], whose arguments carry the intent, the
    parameters and the user id unchanged. *)
Theorem mapToMCPAction_unknown intent parameters userId :
  nullish parameters = false ->
  intent ∉ mcp_intents -> intent ∉ inherited_names ->
  exists mcpAction,
    MCPDialogFlowService.mapToMCPAction intent parameters userId = Return (Data mcpAction)
    /\ read mcpAction "tool" = Str "unknown_intent"
    /\ read (read mcpAction "args") "intent" = Str intent
    /\ read (read mcpAction "args") "parameters" = parameters
    /\ read (read mcpAction "args") "userId" = userId.
Proof.
  intros Hn Hk Hi. exists (unknown_action intent parameters userId).
  split; [by apply mapToMCPAction_fallback|]. repeat split.
Qed.

Lemma mapToMCPAction_unknown_witness :
  exists mcpAction,
    MCPDialogFlowService.mapToMCPAction "general.help" (literal []) (Str "user-1")
    = Return (Data mcpAction)
    /\ read mcpAction "tool" = Str "unknown_intent"
    /\ read (read mcpAction "args") "intent" = Str "general.help"
    /\ read (read mcpAction "args") "parameters" = literal []
    /\ read (read mcpAction "args") "userId" = Str "user-1".
Proof.
  apply (mapToMCPAction_unknown "general.help" (literal []) (Str "user-1")).
  - reflexivity.
  - unfold mcp_intents. not_in_literals.
  - unfold inherited_names, ObjectPrototype_methods. not_in_literals.
Defined.

(** X20: normalizer and action map composed.  A money amount the provider
    delivers under ["amount-of-money"] reaches the [create_transfer] tool:
    the action's [amount] is the numeric content of the [amount]
    sub-field, and its [currency] the currency code (["USD"] by default). *)
Theorem transfer_money_reaches_tool parameters fp (fields : gmap string value) created
        field amount currency userId :
  truthy parameters = true ->
  read parameters "fields" = Object fp fields created ->
  fields_present fields ->
  fields !! "amount-of-money" = Some field ->
  money_payload field amount currency ->
  exists extracted mcpAction,
    MCPDialogFlowService.extractParameters parameters = Return extracted
    /\ MCPDialogFlowService.mapToMCPAction "payment.transfer" extracted userId
       = Return (Data mcpAction)
    /\ read mcpAction "tool" = Str "create_transfer"
    /\ read (read mcpAction "args") "amount" = read amount "numberValue"
    /\ read (read mcpAction "args") "currency" = currency_code currency.
Proof.
  intros Ht Hf Hp Hk Hm.
  destruct (extractParameters_money _ _ _ _ _ _ _ _ Ht Hf Hp Hk Hm)
    as (extracted & H1 & H2 & H3).
  assert (nullish extracted = false) as Hn
    by exact (is_object_not_nullish _ (extractParameters_object _ _ H1)).
  apply read_Get in H3.
  eexists extracted, _. split; [exact H2|].
  split; [exact (mapToMCPAction_transfer _ _ Hn)|]. rewrite H3.
  split; [reflexivity|]. split; [reflexivity|].
  change (read (read (MCPDialogFlowService.action "create_transfer" _) "args") "currency")
    with (currency_code currency ||| Str "USD").
  unfold JS.or at 1. by rewrite currency_code_truthy.
Qed.

Lemma transfer_money_reaches_tool_witness :
  exists extracted mcpAction,
    MCPDialogFlowService.extractParameters (struct_with_amount 150) = Return extracted
    /\ MCPDialogFlowService.mapToMCPAction "payment.transfer" extracted (Str "user-1")
       = Return (Data mcpAction)
    /\ read mcpAction "tool" = Str "create_transfer"
    /\ read (read mcpAction "args") "amount" = Number 150
    /\ read (read mcpAction "args") "currency" = Str "USD".
Proof.
  apply (transfer_money_reaches_tool (struct_with_amount 150) ObjectPrototype _ _
           (amount_only 150) (literal [ ("numberValue", Number 150) ]) Undefined
           (Str "user-1") eq_refl eq_refl (struct_with_amount_present 150)).
  - vm_compute. reflexivity.
  - unfold money_payload. vm_compute. repeat split; reflexivity.
Defined.

End BackendProperties.

Section BackendErrors.

Import MCPDialogFlowService.

(** What a returned result of [processNaturalLanguage] is made of. *)
Lemma processNaturalLanguage_Return_inv this message sessionId userId result :
  processNaturalLanguage this message sessionId userId = Return result ->
  exists response queryResult,
    Provider.detectIntent (sessionClient this) (request this message sessionId)
    = Provider.Resolved response
    /\ Provider.queryResult response = Provider.present queryResult
    /\ intent result
       = Provider.string_or (DialogFlowService.intent_displayName queryResult) "unknown"
    /\ confidence result
       = Provider.number_or (Provider.intentDetectionConfidence queryResult) 0
    /\ extractParameters (Provider.parameters queryResult) = Return (parameters result)
    /\ mapToMCPAction (intent result) (parameters result) userId = Return (mcpAction result)
    /\ fulfillmentText result = Provider.fulfillmentText queryResult.
Proof.
  unfold processNaturalLanguage, try_catch.
  destruct (Provider.detectIntent _ _) as [response|reason] eqn:Hcall; simpl;
    [|discriminate].
  destruct (Provider.queryResult response) as [| |queryResult] eqn:Hqr; simpl;
    try discriminate.
  destruct (extractParameters _) as [ps|e] eqn:Hps; simpl; [|discriminate].
  destruct (mapToMCPAction _ ps userId) as [a|e] eqn:Ha; simpl; [|discriminate].
  intros [= <-]. exists response, queryResult. simpl. auto 10.
Qed.

Lemma MCP_extractParameters_not_nullish parameters extracted :
  extractParameters parameters = Return extracted -> nullish extracted = false.
Proof.
  rewrite extractParameters_copies_equal. intros H.
  exact (is_object_not_nullish _ (extractParameters_object _ _ H)).
Qed.

(** X21: how [processNaturalLanguage] fails.  Unlike [detectIntent], it
    passes errors on unchanged: a rejection of the provider is thrown as
    it is, without a wrapper; a missing query result is the Error
    ["No query result from DialogFlow"]; and the only other failure is a
    TypeError of the normalizer.  [mapToMCPAction] never fails here. *)
Theorem processNaturalLanguage_errors this message sessionId userId :
  (forall reason,
     Provider.detectIntent (sessionClient this) (request this message sessionId)
     = Provider.Rejected reason ->
     processNaturalLanguage this message sessionId userId = Throw reason)
  /\ (forall response,
        Provider.detectIntent (sessionClient this) (request this message sessionId)
        = Provider.Resolved response ->
        absent (Provider.queryResult response) ->
        processNaturalLanguage this message sessionId userId
        = Throw (Error "No query result from DialogFlow"))
  /\ (forall e,
        processNaturalLanguage this message sessionId userId = Throw e ->
        Provider.detectIntent (sessionClient this) (request this message sessionId)
        = Provider.Rejected e
        \/ e = Error "No query result from DialogFlow"
        \/ exists msg, e = TypeError msg).
Proof.
  split; [|split].
  - intros reason H. unfold processNaturalLanguage. rewrite H. reflexivity.
  - intros response H [Hq|Hq]; unfold processNaturalLanguage; rewrite H; simpl;
      rewrite Hq; reflexivity.
  - intros e. unfold processNaturalLanguage, try_catch.
    destruct (Provider.detectIntent _ _) as [response|reason] eqn:Hcall; simpl.
    + destruct (Provider.queryResult response) as [| |queryResult] eqn:Hqr; simpl;
        try (intros [= <-]; auto).
      destruct (extractParameters _) as [ps|e'] eqn:Hps; simpl.
      * destruct (mapToMCPAction_Return
                    (Provider.string_or
                       (DialogFlowService.intent_displayName queryResult) "unknown")
                    ps userId (MCP_extractParameters_not_nullish _ _ Hps)) as [a ->].
        discriminate.
      * intros [= <-]. right. right.
        rewrite extractParameters_copies_equal in Hps.
        by apply extractParameters_throws_TypeError in Hps.
    + intros [= <-]. auto.
Qed.

Lemma processNaturalLanguage_errors_witness :
  processNaturalLanguage (backend (client_rejecting (Error "UNAVAILABLE")))
    "balance" "session-1" (Str "user-1")
  = Throw (Error "UNAVAILABLE").
Proof.
  apply (proj1 (processNaturalLanguage_errors
                  (backend (client_rejecting (Error "UNAVAILABLE")))
                  "balance" "session-1" (Str "user-1"))).
  reflexivity.
Defined.

End BackendErrors.

(** ** The message handlers of the README and the hook *)

Section Handlers.

Import DialogFlowService Readme UseDialogFlow.

Lemma handleChatMessage_Return_inv svc exec message sessionId userId reply :
  handleChatMessage svc exec message sessionId userId = Return reply ->
  exists result,
    MCPDialogFlowService.processNaturalLanguage svc message sessionId userId = Return result
    /\ reply_intent reply = MCPDialogFlowService.intent result
    /\ reply_confidence reply = MCPDialogFlowService.confidence result
    /\ reply_fulfillmentText reply = MCPDialogFlowService.fulfillmentText result
    /\ ((0.7 <? MCPDialogFlowService.confidence result)%float = true
        /\ (exists response,
              exec (MCPDialogFlowService.mcpAction result) = Return response
              /\ reply_response reply = Some response)
        \/ (0.7 <? MCPDialogFlowService.confidence result)%float = false
           /\ reply_response reply = None).
Proof.
  unfold handleChatMessage, try_catch.
  destruct (MCPDialogFlowService.processNaturalLanguage _ _ _ _) as [result|e] eqn:Hp;
    simpl; [|discriminate].
  pose proof (processNaturalLanguage_Return_inv _ _ _ _ _ Hp) as Hinv.
  destruct Hinv as (_ & _ & _ & _ & _ & _ & _ & Ha & _).
  rewrite (mapToMCPAction_truthy _ _ _ _ Ha). simpl.
  destruct (0.7 <? _)%float eqn:Hc.
  - destruct (exec _) as [response|e] eqn:He; simpl; [|discriminate].
    intros [= <-]. exists result. simpl. do 4 (split; [reflexivity|]).
    left. split; [exact Hc|]. eauto.
  - intros [= <-]. exists result. simpl. do 4 (split; [reflexivity|]). right. auto.
Qed.

(** X22: whether [handleChatMessage] executes the MCP action depends on
    the confidence alone.  A reply carries a [response] exactly when the
    confidence is strictly above 0.7; the test of the action itself never
    decides, since [mapToMCPAction] always returns one. *)
Theorem handleChatMessage_threshold svc exec message sessionId userId reply :
  handleChatMessage svc exec message sessionId userId = Return reply ->
  (reply_response reply <> None <-> (0.7 <? reply_confidence reply)%float = true).
Proof.
  intros H. apply handleChatMessage_Return_inv in H
    as (result & _ & _ & -> & _ & [[Hc (response & _ & ->)]|[Hc ->]]).
  - split; [intros _; exact Hc|discriminate].
  - split; [congruence|]. rewrite Hc. discriminate.
Qed.

Lemma handleChatMessage_threshold_witness :
  exists reply,
    handleChatMessage
      (backend (client_resolving
                  (response_for "payment.transfer" (Provider.present 0.7%float)
                     (struct_with_amount 150))))
      (fun _ => Return (Str "done")) "send 150" "session-1" (Str "user-1")
    = Return reply
    /\ (reply_response reply <> None <-> (0.7 <? reply_confidence reply)%float = true).
Proof.
  eexists. split; [vm_compute; reflexivity|].
  apply (handleChatMessage_threshold
           (backend (client_resolving
                       (response_for "payment.transfer" (Provider.present 0.7%float)
                          (struct_with_amount 150))))
           (fun _ => Return (Str "done")) "send 150" "session-1" (Str "user-1")).
  vm_compute. reflexivity.
Defined.



(** X24: the state of the hook after [processMessage].  It is never left
    processing.  After a success it holds the intent and the confidence of
    the result, a confidence that is a number, and no error; after a
    failure it keeps the previous intent and confidence, now stale, and
    its error is the wrapped message of [detectIntent]. *)
Theorem processMessage_state svc message state :
  let '(state', outcome) := processMessage svc message state in
  isProcessing state' = false
  /\ match outcome with
     | Return result =>
         detectIntent svc message = Return result
         /\ lastIntent state' = Some (intent result)
         /\ UseDialogFlow.confidence state' = DialogFlowService.confidence result
         /\ isNaN (UseDialogFlow.confidence state') = false
         /\ error state' = None
     | Throw e =>
         detectIntent svc message = Throw e
         /\ lastIntent state' = lastIntent state
         /\ UseDialogFlow.confidence state' = UseDialogFlow.confidence state
         /\ exists cause, error state' = Some ("Failed to detect intent: " ++ cause)
     end.
Proof.
  unfold processMessage.
  destruct (detectIntent svc message) as [result|e] eqn:H; simpl.
  - do 4 (split; [reflexivity|]). split; [|reflexivity].
    apply detectIntent_Return_inv in H as (? & ? & ? & _ & _ & _ & ->). simpl.
    apply number_or_zero_not_NaN.
  - destruct (detectIntent_throws_Error _ _ _ H) as [cause ->]. simpl. eauto 10.
Qed.

Lemma handleMessage_outcome svc auth exec message chat :
  (forall e, detectIntent svc message = Throw e ->
     messages (handleMessage svc auth exec message chat) = messages chat
     /\ apiCalls (handleMessage svc auth exec message chat) = apiCalls chat)
  /\ (apiCalls (handleMessage svc auth exec message chat) = apiCalls chat
      \/ exists result,
           detectIntent svc message = Return result
           /\ apiCalls (handleMessage svc auth exec message chat)
              = (apiCalls chat ++ [result])%list
           /\ truthy (apiEndpoint result) = true
           /\ (auth = true \/ truthy (requiresAuth result) = false))
  /\ (messages (handleMessage svc auth exec message chat) = messages chat
      \/ exists text,
           messages (handleMessage svc auth exec message chat)
           = (messages chat ++ [ {| text := text; isBot := true |} ])%list).
Proof.
  unfold handleMessage, processMessage.
  destruct (detectIntent svc message) as [result|e] eqn:H; simpl.
  - split; [discriminate|].
    destruct (truthy (requiresAuth result)) eqn:Hr; destruct auth; simpl;
      try (split; left; reflexivity).
    all: destruct (truthy (apiEndpoint result)) eqn:He;
      [destruct (_ ≫= _); simpl|simpl].
    all: split; eauto 10.
  - split; [intros e' _; split; reflexivity|]. split; left; reflexivity.
Qed.

(** X25: what one [handleMessage] can do.  A failed recognition changes
    neither the messages nor the API calls (the user gets no reply); at
    most one API call is made, and only for a result with an endpoint
    that passed the authentication gate; at most one message is added,
    and it is a bot message. *)
Theorem handleMessage_effects svc auth exec message chat :
  (forall e, detectIntent svc message = Throw e ->
     messages (handleMessage svc auth exec message chat) = messages chat
     /\ apiCalls (handleMessage svc auth exec message chat) = apiCalls chat)
  /\ (apiCalls (handleMessage svc auth exec message chat) = apiCalls chat
      \/ exists result,
           detectIntent svc message = Return result
           /\ apiCalls (handleMessage svc auth exec message chat)
              = (apiCalls chat ++ [result])%list
           /\ truthy (apiEndpoint result) = true
           /\ (auth = true \/ truthy (requiresAuth result) = false))
  /\ (messages (handleMessage svc auth exec message chat) = messages chat
      \/ exists text,
           messages (handleMessage svc auth exec message chat)
           = (messages chat ++ [ {| text := text; isBot := true |} ])%list).
Proof. apply handleMessage_outcome. Qed.

(** X26: adapter, table and gate composed.  For a user who is not
    authenticated, the only banking API call [handleMessage] can make is
    the login call: whatever the provider answers, a call that is made is
    for the intent ["auth.login"]. *)
Theorem unauthenticated_calls_only_login svc exec message chat :
  apiCalls (handleMessage svc false exec message chat) <> apiCalls chat ->
  exists result,
    detectIntent svc message = Return result
    /\ intent result = "auth.login"
    /\ apiEndpoint result = Str "/api/auth/login"
    /\ apiCalls (handleMessage svc false exec message chat) = (apiCalls chat ++ [result])%list.
Proof.
  intros Hne.
  destruct (handleMessage_outcome svc false exec message chat)
    as (_ & [Hsame|(result & Hd & Hcalls & He & Hauth)] & _); [contradiction|].
  destruct Hauth as [Hauth|Hr]; [discriminate|].
  exists result. split; [exact Hd|].
  pose proof Hd as Hinv. apply detectIntent_Return_inv in Hinv
    as (response & queryResult & parameters & _ & _ & _ & Hres).
  rewrite Hres in He, Hr |- *. simpl in He, Hr |- *.
  set (name := Provider.string_or (intent_displayName queryResult) "unknown") in *.
  clearbody name.
  rewrite <- Hres.
  destruct (decide (name ∈ inherited_names)) as [Hi|Hi].
  { rewrite (inherited_no_endpoint _ Hi) in He. discriminate. }
  destruct (decide (name ∈ known_intents)) as [Hk|Hk].
  - unfold known_intents in Hk.
    repeat (apply elem_of_cons in Hk as [->|Hk];
            [first [ discriminate Hr | discriminate He
                   | split; [reflexivity|]; split; [vm_compute; reflexivity|exact Hcalls] ]|]).
    by apply elem_of_nil in Hk.
  - exfalso. unfold descriptor_member, mapToBankingOperation, intentMapping in Hr.
    rewrite Get_literal_absent in Hr; [discriminate Hr|exact Hk|exact Hi].
Qed.

Lemma unauthenticated_calls_only_login_witness :
  exists result,
    detectIntent
      (new (client_resolving
              (response_for "auth.login" (Provider.present 0.9%float) Undefined))
           example_config) "log me in"
    = Return result
    /\ intent result = "auth.login"
    /\ apiEndpoint result = Str "/api/auth/login"
    /\ apiCalls
         (handleMessage
            (new (client_resolving
                    (response_for "auth.login" (Provider.present 0.9%float) Undefined))
                 example_config)
            false (fun _ => Return Null) "log me in" empty_chat)
       = (apiCalls empty_chat ++ [result])%list.
Proof.
  apply (unauthenticated_calls_only_login
           (new (client_resolving
                   (response_for "auth.login" (Provider.present 0.9%float) Undefined))
                example_config)
           (fun _ => Return Null) "log me in" empty_chat).
  vm_compute. discriminate.
Defined.

(** X27: the authentication gate is silent.  When the user is not
    authenticated and the intent is neither public nor an inherited name
    (any banking intent, but also any utterance that matched no intent),
    [handleMessage] makes no API call and adds no message: not even a
    request to log in.  Only the hook's state records the intent. *)
Theorem unauthenticated_silent svc exec message chat result :
  detectIntent svc message = Return result ->
  intent result ∉ public_intents ->
  intent result ∉ inherited_names ->
  handleMessage svc false exec message chat
  = {| messages := messages chat;
       hook := succeeded result (started (hook chat));
       apiCalls := apiCalls chat |}.
Proof.
  intros Hd Hp Hi. unfold handleMessage, processMessage. rewrite Hd.
  apply detectIntent_Return_inv in Hd
    as (response & queryResult & parameters & _ & _ & _ & Hres).
  assert (requiresAuth result = Bool true) as ->; [|reflexivity].
  rewrite Hres in Hp, Hi |- *. simpl in Hp, Hi |- *.
  destruct (descriptor_requiresAuth
              (Provider.string_or (intent_displayName queryResult) "unknown"))
    as [[H _]|[[H _]|(_ & _ & H)]]; [contradiction|contradiction|exact H].
Qed.

Lemma unauthenticated_silent_witness :
  exists result,
    detectIntent (new (client_resolving response_without_intent) example_config) "hello"
    = Return result
    /\ handleMessage (new (client_resolving response_without_intent) example_config)
         false (fun _ => Return Null) "hello" empty_chat
       = {| messages := [];
            hook := succeeded result (started initialState);
            apiCalls := [] |}.
Proof.
  eexists. split; [vm_compute; reflexivity|].
  apply (unauthenticated_silent
           (new (client_resolving response_without_intent) example_config)
           (fun _ => Return Null) "hello" empty_chat).
  - vm_compute. reflexivity.
  - unfold public_intents. simpl. not_in_literals.
  - unfold inherited_names, ObjectPrototype_methods. simpl. not_in_literals.
Defined.

End Handlers.
